(** * GoogleDataStore: the Google Sheets cell feed connector

    A shallow embedding of [ts/Data/GoogleDataStore.ts]: the column builder
    [getSheetColumns], the parse step [parseSheet], the load cycle
    [fetchSheet] with its two transport callbacks, and [load].

    Conventions of the embedding
    - a JavaScript array is a list of slots, a slot being [Some v] or a hole
      [None] that reads as [undefined];
    - a JavaScript Number that is used as an array index or is compared with
      one (the 1-based [row] and [col] of a cell, the four window bounds) is
      an integer and is embedded as [Z]; the other Numbers (cell values, the
      worksheet number, the refresh rate) are IEEE 754 binary64 values,
      embedded as [spec_float];
    - a JavaScript string is a [string] of one-byte characters, each the
      code unit of that value (U+0000 to U+00FF);
    - an array index is below 2^32 - 1: a write at a larger index, which
      JavaScript keeps as an ordinary property without growing the array,
      reads back alike here but is counted in the length;
    - a JavaScript exception is the outcome [Throw]; every function that can
      throw returns an [outcome];
    - the effects of the load cycle (events, requests, timers, tables built)
      are appended to a trace carried next to the store. *)

From Stdlib Require Import ZArith String Ascii List Bool Lia.
From Stdlib Require Import Floats.SpecFloat.
From stdpp Require Import base option list.

Import ListNotations.
Open Scope string_scope.
Open Scope list_scope.
Open Scope Z_scope.

(** ** Outcomes: normal completion, a thrown exception, or fuel exhausted *)

Inductive exn : Type :=
| TypeError.

Inductive outcome (A : Type) : Type :=
| Ret (a : A)
| Throw (e : exn)
| OutOfFuel.

Arguments Ret {A} a.
Arguments Throw {A} e.
Arguments OutOfFuel {A}.

Definition obind {A B : Type} (m : outcome A) (f : A -> outcome B) : outcome B :=
  match m with
  | Ret a => f a
  | Throw e => Throw e
  | OutOfFuel => OutOfFuel
  end.

Declare Scope outcome_scope.
Delimit Scope outcome_scope with outcome.
Notation "x <- m ;; k" := (obind m (fun x => k))
  (at level 100, m at next level, right associativity) : outcome_scope.

(** ** JavaScript arrays with holes *)

Module JSArray.

Abbreviation t A := (list (option A)).

(** [a[i]]: [None] stands for [undefined], read from a hole or from an
    index at or beyond [a.length]. *)
Definition get {A : Type} (a : t A) (i : nat) : option A :=
  match a !! i with
  | Some slot => slot
  | None => None
  end.

(** [a[i] = v]: overwrites slot [i]; at or beyond [a.length] the array is
    extended with holes up to [i]. *)
Definition set {A : Type} (a : t A) (i : nat) (v : A) : t A :=
  if decide (i < length a)%nat
  then <[i := Some v]> a
  else a ++ replicate (i - length a) None ++ [Some v].

(** [a[i][j]] where [a[i]] is known to be an array. *)
Definition get2 {A : Type} (a : t (t A)) (i j : nat) : option A :=
  match get a i with
  | Some inner => get inner j
  | None => None
  end.

End JSArray.

(** ** Strings *)

(** [s.indexOf(c)] for a one-character search string [c]: the position of
    the first occurrence, or [-1]. *)
Fixpoint indexOfFrom (s : string) (c : ascii) (pos : Z) : Z :=
  match s with
  | EmptyString => -1
  | String c' rest => if Ascii.eqb c' c then pos else indexOfFrom rest c (pos + 1)
  end.

Definition indexOf (s : string) (c : ascii) : Z := indexOfFrom s c 0.

(** Truthiness of a possibly absent string property: [undefined] and the
    empty string are falsy. *)
Definition truthy (o : option string) : bool :=
  match o with
  | Some EmptyString => false
  | Some (String _ _) => true
  | None => false
  end.

(** [Array.prototype.join]. *)
Fixpoint join (sep : string) (parts : list string) : string :=
  match parts with
  | [] => EmptyString
  | [p] => p
  | p :: rest => String.append p (String.append sep (join sep rest))
  end.

(** ** Numbers: IEEE 754 binary64 *)

Module Num.

Definition prec : Z := 53.
Definition emax : Z := 1024.

Definition t : Type := spec_float.

Definition NaN : t := S754_nan.

(** The Number nearest to an integer. *)
Definition ofZ (z : Z) : t := binary_normalize prec emax z 0 false.

(** The [*] operator. *)
Definition mul (x y : t) : t := SFmul prec emax x y.

(** [Number.MAX_VALUE], an integer: (2^53 - 1) * 2^971. *)
Definition MAX_VALUE : Z := (2 ^ 53 - 1) * 2 ^ 971.

(** *** [parseFloat]

    ECMAScript's [parseFloat]: leading white space is skipped, the longest
    prefix that is a [StrDecimalLiteral] is read, and its decimal value is
    rounded to the nearest binary64 (ties to even, the choice the standard
    allows for every number of digits); [NaN] when no prefix is a literal.
    Of the white space and line terminators of the standard, the ones with
    a code unit below 256 are U+0009 to U+000D, U+0020 and U+00A0. *)

Definition isWhiteSpace (c : ascii) : bool :=
  let n := Z.of_nat (nat_of_ascii c) in
  ((9 <=? n) && (n <=? 13)) || (n =? 32) || (n =? 160).

Fixpoint trimStart (s : string) : string :=
  match s with
  | String c rest => if isWhiteSpace c then trimStart rest else s
  | EmptyString => s
  end.

Definition digitOf (c : ascii) : option Z :=
  let n := Z.of_nat (nat_of_ascii c) in
  if (48 <=? n) && (n <=? 57) then Some (n - 48) else None.

(** Reads a maximal run of decimal digits: the value accumulated onto
    [acc], the number of digits read added to [n], and the rest. *)
Fixpoint digits (s : string) (acc n : Z) : Z * Z * string :=
  match s with
  | String c rest =>
      match digitOf c with
      | Some d => digits rest (10 * acc + d) (n + 1)
      | None => (acc, n, s)
      end
  | EmptyString => (acc, n, s)
  end.

(** [ExponentPart], optional: [e] or [E], an optional sign, and at least
    one digit; [0] when the text does not start with one. *)
Definition exponentPart (s : string) : Z :=
  match s with
  | String c rest =>
      if Ascii.eqb c "e" || Ascii.eqb c "E" then
        let '(neg, rest') :=
          match rest with
          | String "-" r => (true, r)
          | String "+" r => (false, r)
          | _ => (false, rest)
          end in
        let '(v, n, _) := digits rest' 0 0 in
        if n =? 0 then 0 else if neg then - v else v
      else 0
  | EmptyString => 0
  end.

(** The binary64 nearest to [(-1)^neg * m * 10^e], for [0 <= m]. *)
Definition decimalValue (neg : bool) (m e : Z) : t :=
  if m =? 0 then S754_zero neg
  else if 0 <=? e then
    binary_normalize prec emax (cond_Zopp neg (m * 10 ^ e)) 0 neg
  else
    let '(q, e', l) := SFdiv_core_binary prec emax m 0 (10 ^ (- e)) 0 in
    binary_round_aux prec emax neg q e' l.

Definition unsignedLiteral (neg : bool) (s : string) : t :=
  if String.prefix "Infinity" s then S754_infinity neg
  else
    let '(ip, ni, r1) := digits s 0 0 in
    match r1 with
    | String "." r2 =>
        let '(m, nf, r3) := digits r2 ip 0 in
        if (ni =? 0) && (nf =? 0) then NaN
        else decimalValue neg m (exponentPart r3 - nf)
    | _ =>
        if ni =? 0 then NaN else decimalValue neg ip (exponentPart r1)
    end.

Definition parseFloat (s : string) : t :=
  match trimStart s with
  | String "-" rest => unsignedLiteral true rest
  | String "+" rest => unsignedLiteral false rest
  | rest => unsignedLiteral false rest
  end.

End Num.

(** ** Data model *)

(** [DataValueType], as far as this connector produces it: a cell value is a
    string, a number or [null]. *)
Inductive DataValue : Type :=
| VNull
| VNumber (n : Num.t)
| VString (s : string).

(** A column is an array of cell values; the Column Set is an array of
    columns. A hole of a column is a position never assigned. *)
Abbreviation Column := (JSArray.t DataValue).
Abbreviation Columns := (JSArray.t Column).

(** [entry.gs$cell]: the 1-based [row] and [col], the optional
    [numericValue] (a decimal string in the feed) and the display text
    [$t]. *)
Record GsCell : Type := mkGsCell {
  row : Z;
  col : Z;
  numericValue : option string;
  text : option string
}.

(** One entry of [json.feed.entry]; [content] is the entry's other text
    carrier, [entry.content.$t]. *)
Record Entry : Type := mkEntry {
  gs_cell : GsCell;
  content : option string
}.

(** The payload [json]: [json.feed.entry] may be missing. *)
Record JSON : Type := mkJSON {
  feed_entry : option (list Entry)
}.

(** [GoogleDataStore.Options]. *)
Record Options : Type := mkOptions {
  googleSpreadsheetKey : string;
  worksheet : Num.t;
  startColumn : Z;
  endColumn : Z;
  startRow : Z;
  endRow : Z;
  enablePolling : bool;
  dataRefreshRate : Num.t
}.

Definition defaultOptions : Options := {|
  googleSpreadsheetKey := EmptyString;
  worksheet := Num.ofZ 1;
  startColumn := 0;
  endColumn := Num.MAX_VALUE;
  startRow := 0;
  endRow := Num.MAX_VALUE;
  enablePolling := false;
  dataRefreshRate := Num.ofZ 2
|}.

(** ** The column builder, [getSheetColumns] *)

(** [(cells || [])]. *)
Definition cellsOf (json : JSON) : list Entry :=
  match feed_entry json with
  | Some cells => cells
  | None => []
  end.

Definition cellCountOf (json : JSON) : Z := Z.of_nat (length (cellsOf json)).

(** First loop: the largest [col] and the largest [row] of the feed,
    starting from 0. *)
Definition colCountOf (cells : list Entry) : Z :=
  fold_left (fun colCount cell => Z.max colCount (col (gs_cell cell))) cells 0.

Definition rowCountOf (cells : list Entry) : Z :=
  fold_left (fun rowCount cell => Z.max rowCount (row (gs_cell cell))) cells 0.

(** Second loop: [columns[i - startColumn] = []] for every [i] in
    [0 .. colCount - 1] with [startColumn <= i <= endColumn]. *)
Definition allocStep (o : Options) (columns : Columns) (i : Z) : Columns :=
  if (startColumn o <=? i) && (i <=? endColumn o)
  then JSArray.set columns (Z.to_nat (i - startColumn o)) []
  else columns.

Definition allocColumns (o : Options) (colCount : Z) : Columns :=
  fold_left (allocStep o) (seqZ 0 colCount) [].

(** The window test of the third loop, on the 0-based [gc] and [gr]. *)
Definition inWindow (o : Options) (cell : Entry) : bool :=
  let gr := row (gs_cell cell) - 1 in
  let gc := col (gs_cell cell) - 1 in
  (startColumn o <=? gc) && (gc <=? endColumn o) &&
  (startRow o <=? gr) && (gr <=? endRow o).

(** [cell.gs$cell || cell.content]: [cell.gs$cell] is an object, hence
    truthy, so the left operand is taken. *)
Definition cellInner (cell : Entry) : GsCell := gs_cell cell.

(** The value computed for one cell. [if (cellInner.numericValue)] holds
    for a [numericValue] that is present and not the empty string, and
    [cellInner.$t && cellInner.$t.length] likewise for [$t]. Calling
    [indexOf] on a missing [$t] is a TypeError. *)
Definition cellValue (inner : GsCell) : outcome DataValue :=
  match numericValue inner with
  | Some (String _ _ as nv) =>
      match text inner with
      | None => Throw TypeError
      | Some t =>
          if (0 <=? indexOf t "/") || (0 <=? indexOf t "-") then
            Ret (VString t)
          else if 0 <? indexOf t "%" then
            Ret (VNumber (Num.mul (Num.parseFloat nv) (Num.ofZ 100)))
          else
            Ret (VNumber (Num.parseFloat nv))
      end
  | _ =>
      match text inner with
      | Some (String _ _ as t) => Ret (VString t)
      | _ => Ret VNull
      end
  end.

(** Body of the third loop: [columns[gc - startColumn][gr - startRow] = val]
    for a cell inside the window. Indexing an unallocated column is a
    TypeError. *)
Definition assignCell (o : Options) (columns : Columns) (cell : Entry)
  : outcome Columns :=
  let gr := row (gs_cell cell) - 1 in
  let gc := col (gs_cell cell) - 1 in
  if inWindow o cell then
    (val <- cellValue (cellInner cell) ;;
     match JSArray.get columns (Z.to_nat (gc - startColumn o)) with
     | None => Throw TypeError
     | Some column =>
         Ret (JSArray.set columns (Z.to_nat (gc - startColumn o))
                (JSArray.set column (Z.to_nat (gr - startRow o)) val))
     end)%outcome
  else Ret columns.

Fixpoint assignCells (o : Options) (columns : Columns) (cells : list Entry)
  : outcome Columns :=
  match cells with
  | [] => Ret columns
  | cell :: rest =>
      (columns' <- assignCell o columns cell ;; assignCells o columns' rest)%outcome
  end.

(** The array [columns] as the first three loops leave it. *)
Definition buildColumns (o : Options) (json : JSON) : outcome Columns :=
  assignCells o (allocColumns o (colCountOf (cellsOf json))) (cellsOf json).

(** Body of the fourth loop nest:
    [if (typeof columns[i][j] === 'undefined') columns[i][j] = null]. *)
Definition fillBody (columns : Columns) (i j : Z) : outcome Columns :=
  match JSArray.get columns (Z.to_nat i) with
  | None => Throw TypeError
  | Some column =>
      match JSArray.get column (Z.to_nat j) with
      | None =>
          Ret (JSArray.set columns (Z.to_nat i)
                 (JSArray.set column (Z.to_nat j) VNull))
      | Some _ => Ret columns
      end
  end.

(** The inner loop [for (j = 0; j < cellCount; i++)]: its update advances
    [i], and [j] stays as it is. On exit it hands [i] back to the outer
    loop. *)
Fixpoint fillInner (fuel : nat) (cellCount j i : Z) (columns : Columns)
  : outcome (Z * Columns) :=
  match fuel with
  | O => OutOfFuel
  | S fuel' =>
      if j <? cellCount then
        (columns' <- fillBody columns i j ;;
         fillInner fuel' cellCount j (i + 1) columns')%outcome
      else Ret (i, columns)
  end.

(** The outer loop [for (i = 0; i < colCount; i++)], entered at [i]. An
    inner loop that throws does so within [length columns + 1] rounds. *)
Fixpoint fillOuter (fuel : nat) (colCount cellCount i : Z) (columns : Columns)
  : outcome Columns :=
  match fuel with
  | O => OutOfFuel
  | S fuel' =>
      if i <? colCount then
        (r <- fillInner (S (length columns)) cellCount 0 i columns ;;
         fillOuter fuel' colCount cellCount (fst r + 1) (snd r))%outcome
      else Ret columns
  end.

Definition fillNulls (colCount cellCount : Z) (columns : Columns)
  : outcome Columns :=
  fillOuter (S (Z.to_nat colCount)) colCount cellCount 0 columns.

Definition getSheetColumns (o : Options) (json : JSON) : outcome Columns :=
  (columns <- buildColumns o json ;;
   fillNulls (colCountOf (cellsOf json)) (cellCountOf json) columns)%outcome.

(** ** The load cycle *)

(** Modelled from the spec: the Result Table of [DataTable.ts] and
    [DataParser.columnArrayToDataTable], which are not part of the source at
    hand; the table is "constructed from Column Set + Headers" and its
    inner structure is left open, so it is the pair of its two inputs. *)
Record DataTable : Type := mkDataTable {
  tableColumns : Columns;
  tableHeaders : list string
}.

(** Modelled from the spec: [DataParser.columnArrayToDataTable], "a
    table-construction utility taking column arrays and header strings". *)
Definition columnArrayToDataTable (columns : Columns) (headers : list string)
  : DataTable :=
  mkDataTable columns headers.

(** The store: the table handed to the constructor, the merged options and
    the public [columns] field. *)
Record Store : Type := mkStore {
  table : DataTable;
  options : Options;
  columns : Columns
}.

(** The options object handed to the constructor: every field may be
    left out. *)
Record PartialOptions : Type := mkPartialOptions {
  p_googleSpreadsheetKey : option string;
  p_worksheet : option Num.t;
  p_startColumn : option Z;
  p_endColumn : option Z;
  p_startRow : option Z;
  p_endRow : option Z;
  p_enablePolling : option bool;
  p_dataRefreshRate : option Num.t
}.

(** Modelled from the spec: [merge] of [Core/Utilities], "an options-merge
    utility producing a configuration from defaults + overrides". *)
Definition merge (d : Options) (p : PartialOptions) : Options := {|
  googleSpreadsheetKey := default (googleSpreadsheetKey d) (p_googleSpreadsheetKey p);
  worksheet := default (worksheet d) (p_worksheet p);
  startColumn := default (startColumn d) (p_startColumn p);
  endColumn := default (endColumn d) (p_endColumn p);
  startRow := default (startRow d) (p_startRow p);
  endRow := default (endRow d) (p_endRow p);
  enablePolling := default (enablePolling d) (p_enablePolling p);
  dataRefreshRate := default (dataRefreshRate d) (p_dataRefreshRate p)
|}.

(** The constructor. *)
Definition newStore (table : DataTable) (p : PartialOptions) : Store := {|
  table := table;
  options := merge defaultOptions p;
  columns := []
|}.

(** The five events with their argument objects. *)
Inductive Event : Type :=
| EvLoad (json : JSON) (enablePolling : bool) (dataRefreshRate : Num.t)
| EvParse (json : JSON)
| EvAfterParse (columns : Columns)
| EvAfterLoad (table : DataTable)
| EvFail (text : string).

(** What a request carries: the URL, and the two option values that the
    callbacks of [fetchSheet] have captured. *)
Record Request : Type := mkRequest {
  url : string;
  reqEnablePolling : bool;
  reqDataRefreshRate : Num.t
}.

(** What the load cycle does to the outside, in order. The callback of every
    timer is [store.fetchSheet()]. *)
Inductive Effect : Type :=
| Emit (e : Event)
| Ajax (r : Request)
| SetTimeout (ms : Num.t)
| BuildTable (t : DataTable).

Record World : Type := mkWorld {
  store : Store;
  trace : list Effect
}.

(** A computation on the world; a thrown exception keeps the world as the
    throwing statement left it. *)
Definition M (A : Type) : Type := World -> outcome A * World.

Definition mret {A : Type} (a : A) : M A := fun w => (Ret a, w).

Definition mbind {A B : Type} (m : M A) (f : A -> M B) : M B :=
  fun w =>
    match m w with
    | (Ret a, w') => f a w'
    | (Throw e, w') => (Throw e, w')
    | (OutOfFuel, w') => (OutOfFuel, w')
    end.

Declare Scope world_scope.
Delimit Scope world_scope with world.
Notation "x <- m ;; k" := (mbind m (fun x => k))
  (at level 100, m at next level, right associativity) : world_scope.
Notation "m ;;; k" := (mbind m (fun _ => k))
  (at level 100, right associativity) : world_scope.

Definition lift {A : Type} (r : outcome A) : M A := fun w => (r, w).

Definition getStore : M Store := fun w => (Ret (store w), w).

Definition setColumns (columns : Columns) : M unit :=
  fun w =>
    (Ret tt,
     {| store := {| table := table (store w);
                    options := options (store w);
                    columns := columns |};
        trace := trace w |}).

Definition effect (e : Effect) : M unit :=
  fun w => (Ret tt, {| store := store w; trace := trace w ++ [e] |}).

(** Modelled from the spec: [fireEvent] of [Core/Utilities], "an
    event-emission facility supporting named events with payload and an
    optional continuation callback invoked after all listeners run". The
    listeners are the observers outside this module; what is kept of them is
    that the event was emitted. *)
Definition fireEvent (e : Event) (defaultFunction : option (M unit)) : M unit :=
  (effect (Emit e) ;;;
   match defaultFunction with
   | Some f => f
   | None => mret tt
   end)%world.

(** [parseSheet]: returns [false] ([Some false]) on a missing or empty
    feed, and [undefined] ([None]) otherwise. *)
Definition parseSheet (json : JSON) : M (option bool) :=
  match feed_entry json with
  | None | Some [] => mret (Some false)
  | Some (_ :: _) =>
      (fireEvent (EvParse json)
         (Some (s <- getStore ;;
                columns <- lift (getSheetColumns (options s) json) ;;
                setColumns columns ;;;
                fireEvent (EvAfterParse columns) None)) ;;;
       mret None)%world
  end.

Section Loader.

(** [Number::toString], used by the string concatenations ['' + value]
    and by [join]. *)
Variable Number_toString : Num.t -> string.

(** ['' + v] for the content of a slot. *)
Definition toStr (v : option DataValue) : string :=
  match v with
  | None => "undefined"
  | Some VNull => "null"
  | Some (VNumber n) => Number_toString n
  | Some (VString s) => s
  end.

(** [for (i = 0; i < colsCount; i++) headers.push('' + store.columns[i][0])]
    with [colsCount = store.columns.length]: one header per slot of
    [store.columns], in order; a hole among the slots is a TypeError. *)
Fixpoint headersOf (columns : Columns) : outcome (list string) :=
  match columns with
  | [] => Ret []
  | None :: _ => Throw TypeError
  | Some column :: rest =>
      (headers <- headersOf rest ;;
       Ret (toStr (JSArray.get column 0) :: headers))%outcome
  end.

(** Modelled from the spec: [ajax] of [Extensions/Ajax], "an opaque async
    request function returning parsed JSON or an error": the call only
    issues the request; the transport later runs one of the two
    callbacks, see [respond]. *)
Definition ajax (r : Request) : M unit := effect (Ajax r).

Definition fetchSheet : M unit :=
  (s <- getStore ;;
   let o := options s in
   ajax {| url := join "/" [ "https://spreadsheets.google.com/feeds/cells";
                             googleSpreadsheetKey o;
                             Number_toString (worksheet o);
                             "public/values?alt=json" ];
           reqEnablePolling := enablePolling o;
           reqDataRefreshRate := dataRefreshRate o |})%world.

(** The default function of the 'load' event. *)
Definition loadDefault (enablePolling : bool) (dataRefreshRate : Num.t)
    (json : JSON) : M unit :=
  (parseSheet json ;;;
   s <- getStore ;;
   headers <- lift (headersOf (columns s)) ;;
   let table := columnArrayToDataTable (columns s) headers in
   effect (BuildTable table) ;;;
   (if enablePolling
    then effect (SetTimeout (Num.mul dataRefreshRate (Num.ofZ 1000)))
    else mret tt) ;;;
   fireEvent (EvAfterLoad table) None)%world.

(** The [success] callback of the request. *)
Definition onSuccess (r : Request) (json : JSON) : M unit :=
  fireEvent (EvLoad json (reqEnablePolling r) (reqDataRefreshRate r))
    (Some (loadDefault (reqEnablePolling r) (reqDataRefreshRate r) json)).

(** The [error] callback of the request; [xhr] is not used. *)
Definition onError (xhr : unit) (text : string) : M unit :=
  fireEvent (EvFail text) None.

(** What the transport answers. *)
Inductive Response : Type :=
| Success (json : JSON)
| Failure (xhr : unit) (text : string).

Definition respond (r : Request) (resp : Response) : M unit :=
  match resp with
  | Success json => onSuccess r json
  | Failure xhr text => onError xhr text
  end.

(** [load]. *)
Definition load : M unit :=
  (s <- getStore ;;
   if truthy (Some (googleSpreadsheetKey (options s)))
   then fetchSheet
   else mret tt)%world.

End Loader.


(** ** Vocabulary of the statements *)

(** The text [s] contains the character [c]. *)
Definition contains (s : string) (c : ascii) : Prop :=
  In c (list_ascii_of_string s).

(** No column of the array holds anything: every allocated column has
    length zero. *)
Definition allColumnsEmpty (columns : Columns) : Prop :=
  forall (k : nat) (column : Column),
    JSArray.get columns k = Some column -> column = [].

(** Every index below the length holds a value or [null], never a hole. *)
Definition noHoles {A : Type} (a : JSArray.t A) : Prop :=
  forall i : nat, (i < length a)%nat -> exists v, JSArray.get a i = Some v.

(** The entry of a cell, and the feed of one cell. *)
Definition cellAt (r c : Z) (nv t : option string) : Entry :=
  mkEntry (mkGsCell r c nv t) None.

Definition singleCell (r c : Z) (nv t : option string) : JSON :=
  mkJSON (Some [cellAt r c nv t]).

(** The 0-based position of a cell in the Column Set. *)
Definition columnIndex (o : Options) (cell : Entry) : nat :=
  Z.to_nat (col (gs_cell cell) - 1 - startColumn o).

Definition rowIndex (o : Options) (cell : Entry) : nat :=
  Z.to_nat (row (gs_cell cell) - 1 - startRow o).

(** The feed is 1-based in its columns. *)
Definition oneBased (cells : list Entry) : Prop :=
  forall c, c ∈ cells -> 1 <= col (gs_cell c).

(** Every entry that carries a numeric value has a display text. *)
Definition numbersHaveText (cells : list Entry) : Prop :=
  forall c, c ∈ cells ->
    truthy (numericValue (gs_cell c)) = true -> text (gs_cell c) <> None.

(** No entry of the window among [later] has the position of [cell]. *)
Definition notOverwritten (o : Options) (cell : Entry) (later : list Entry)
  : Prop :=
  forall c, c ∈ later -> inWindow o c = true ->
    (columnIndex o c, rowIndex o c) <> (columnIndex o cell, rowIndex o cell).

(** A store as the constructor leaves it, with an empty trace. *)
Definition freshWorld (p : PartialOptions) : World :=
  mkWorld (newStore (mkDataTable [] []) p) [].

Definition keyOnly (key : option string) : PartialOptions :=
  mkPartialOptions key None None None None None None None.

(** The default window with another first column. *)
Definition fromColumn (c : Z) : Options :=
  mkOptions EmptyString (Num.ofZ 1) c Num.MAX_VALUE 0 Num.MAX_VALUE false (Num.ofZ 2).

(** ** The connector in its environment *)

(** The request [fetchSheet] builds from the options: the URL joined from
    its four parts and the two option values its callbacks capture. *)
Definition requestOf (nts : Num.t -> string) (o : Options) : Request := {|
  url := join "/" [ "https://spreadsheets.google.com/feeds/cells";
                    googleSpreadsheetKey o;
                    nts (worksheet o);
                    "public/values?alt=json" ];
  reqEnablePolling := enablePolling o;
  reqDataRefreshRate := dataRefreshRate o
|}.

(** The callback handed to [setTimeout]:
    [function () { store.fetchSheet(); }]. *)
Definition onTimeout (nts : Num.t -> string) : M unit := fetchSheet nts.

(** What can happen to a store: the user calls [load], the transport
    answers a request, a timer fires. An exception of a callback ends that
    callback and leaves the world as the throwing statement left it. *)
Inductive Action : Type :=
| DoLoad
| DoRespond (r : Request) (resp : Response)
| DoTimeout.

Definition step (nts : Num.t -> string) (w : World) (a : Action) : World :=
  match a with
  | DoLoad => snd (load nts w)
  | DoRespond r resp => snd (respond nts r resp w)
  | DoTimeout => snd (onTimeout nts w)
  end.

Definition run (nts : Num.t -> string) (actions : list Action) (w : World)
  : World :=
  fold_left (step nts) actions w.

(** The store with its [columns] replaced. *)
Definition withColumns (s : Store) (columns : Columns) : Store :=
  {| table := table s; options := options s; columns := columns |}.

(** The requests and the timer delays of a trace, in order. *)
Definition requestsOf (tr : list Effect) : list Request :=
  omap (fun e => match e with Ajax r => Some r | _ => None end) tr.

Definition timersOf (tr : list Effect) : list Num.t :=
  omap (fun e => match e with SetTimeout ms => Some ms | _ => None end) tr.

(** An effect that hands no cell data to the outside: the Column Set of an
    'afterParse' is empty, and so is the table built or handed to
    'afterLoad'. *)
Definition carriesNoData (e : Effect) : Prop :=
  match e with
  | Emit (EvAfterParse columns) => columns = []
  | Emit (EvAfterLoad t) => t = mkDataTable [] []
  | BuildTable t => t = mkDataTable [] []
  | _ => True
  end.

Definition holdsNoData (w : World) : Prop :=
  columns (store w) = [] /\ Forall carriesNoData (trace w).


(** * Properties *)

(** ** Arrays *)

Lemma get_lt_length {A : Type} (a : JSArray.t A) (i : nat) (v : A) :
  JSArray.get a i = Some v -> (i < length a)%nat.
Proof.
  unfold JSArray.get. intros H.
  destruct (a !! i) as [slot|] eqn:E; [|discriminate].
  eapply lookup_lt_Some; eauto.
Qed.

Lemma get_ge_length {A : Type} (a : JSArray.t A) (i : nat) :
  (length a <= i)%nat -> JSArray.get a i = None.
Proof.
  intros H. unfold JSArray.get. rewrite (lookup_ge_None_2 a i); auto.
Qed.

Lemma length_set {A : Type} (a : JSArray.t A) (i : nat) (v : A) :
  length (JSArray.set a i v) = Nat.max (length a) (S i).
Proof.
  unfold JSArray.set. destruct (decide (i < length a)%nat).
  - rewrite length_insert. lia.
  - rewrite !length_app, length_replicate. simpl. lia.
Qed.

Lemma get_set_eq {A : Type} (a : JSArray.t A) (i : nat) (v : A) :
  JSArray.get (JSArray.set a i v) i = Some v.
Proof.
  unfold JSArray.get, JSArray.set. destruct (decide (i < length a)%nat).
  - rewrite list_lookup_insert_eq; auto.
  - rewrite lookup_app_r by lia.
    rewrite lookup_app_r by (rewrite length_replicate; lia).
    rewrite length_replicate.
    replace (i - length a - (i - length a))%nat with 0%nat by lia.
    reflexivity.
Qed.

Lemma get_set_ne {A : Type} (a : JSArray.t A) (i j : nat) (v : A) :
  i <> j -> JSArray.get (JSArray.set a i v) j = JSArray.get a j.
Proof.
  intros Hne. unfold JSArray.get, JSArray.set.
  destruct (decide (i < length a)%nat).
  - rewrite list_lookup_insert_ne; auto.
  - destruct (decide (j < length a)%nat).
    + rewrite lookup_app_l; auto.
    + rewrite (lookup_ge_None_2 a j) by lia.
      rewrite lookup_app_r by lia.
      destruct (decide (j - length a < i - length a)%nat).
      * rewrite lookup_app_l by (rewrite length_replicate; lia).
        rewrite lookup_replicate_2; auto.
      * rewrite lookup_app_r by (rewrite length_replicate; lia).
        rewrite length_replicate.
        rewrite lookup_ge_None_2; [reflexivity|]. simpl. lia.
Qed.

Lemma get2_set_set {A : Type} (a : JSArray.t (JSArray.t A)) (k r : nat)
    (column : JSArray.t A) (v : A) :
  JSArray.get2 (JSArray.set a k (JSArray.set column r v)) k r = Some v.
Proof.
  unfold JSArray.get2. rewrite get_set_eq. apply get_set_eq.
Qed.

(** ** The counters of the first loop *)

Lemma fold_max_col_ge (cells : list Entry) (acc : Z) :
  acc <= fold_left (fun colCount cell => Z.max colCount (col (gs_cell cell))) cells acc.
Proof.
  revert acc. induction cells as [|c cells IH]; intros acc; simpl; [lia|].
  specialize (IH (Z.max acc (col (gs_cell c)))). lia.
Qed.

Lemma fold_max_col_elem (cells : list Entry) (acc : Z) (c : Entry) :
  c ∈ cells ->
  col (gs_cell c) <= fold_left (fun colCount cell => Z.max colCount (col (gs_cell cell))) cells acc.
Proof.
  revert acc. induction cells as [|c' cells IH]; intros acc Hin.
  - inversion Hin.
  - simpl. apply elem_of_cons in Hin as [->|Hin].
    + pose proof (fold_max_col_ge cells (Z.max acc (col (gs_cell c')))). lia.
    + apply IH; auto.
Qed.

Lemma colCountOf_nonneg (cells : list Entry) : 0 <= colCountOf cells.
Proof. apply fold_max_col_ge. Qed.

Lemma colCountOf_elem (cells : list Entry) (c : Entry) :
  c ∈ cells -> col (gs_cell c) <= colCountOf cells.
Proof. apply fold_max_col_elem. Qed.

(** ** The null fill *)

Lemma fillBody_length (columns columns' : Columns) (i j : Z) :
  fillBody columns i j = Ret columns' -> length columns' = length columns.
Proof.
  unfold fillBody. intros H.
  destruct (JSArray.get columns (Z.to_nat i)) as [column|] eqn:E; [|discriminate].
  apply get_lt_length in E.
  destruct (JSArray.get column (Z.to_nat j)); inversion H; subst; auto.
  rewrite length_set. lia.
Qed.

Lemma fillBody_beyond (columns : Columns) (i j : Z) :
  (length columns <= Z.to_nat i)%nat -> fillBody columns i j = Throw TypeError.
Proof.
  intros H. unfold fillBody. rewrite get_ge_length; auto.
Qed.

Lemma fillBody_fuel (columns : Columns) (i j : Z) :
  fillBody columns i j <> OutOfFuel.
Proof.
  unfold fillBody.
  destruct (JSArray.get columns (Z.to_nat i)) as [column|]; [|discriminate].
  destruct (JSArray.get column (Z.to_nat j)); discriminate.
Qed.

(** With [j < cellCount] the inner loop cannot leave: [j] never moves, [i]
    walks up the array, and the read of [columns[i][j]] throws at the first
    hole or at [length columns] at the latest. *)
Lemma fillInner_throws (fuel : nat) (cellCount j i : Z) (columns : Columns) :
  j < cellCount -> 0 <= i ->
  (length columns - Z.to_nat i < fuel)%nat ->
  fillInner fuel cellCount j i columns = Throw TypeError.
Proof.
  revert i columns. induction fuel as [|fuel IH]; intros i columns Hj Hi Hfuel.
  - lia.
  - simpl. apply Z.ltb_lt in Hj as Hj'. rewrite Hj'.
    destruct (fillBody columns i j) as [columns'|e|] eqn:E; simpl.
    + apply fillBody_length in E as Hlen.
      destruct (decide (length columns <= Z.to_nat i)%nat) as [Hge|Hlt].
      * rewrite fillBody_beyond in E by auto. discriminate.
      * apply IH; auto; try lia.
    + destruct e. reflexivity.
    + exfalso. eapply fillBody_fuel; eauto.
Qed.

Lemma fillInner_exit (fuel : nat) (cellCount j i : Z) (columns : Columns) :
  cellCount <= j ->
  fillInner (S fuel) cellCount j i columns = Ret (i, columns).
Proof.
  intros H. simpl. apply Z.ltb_ge in H. rewrite H. reflexivity.
Qed.

Lemma fillOuter_idle (fuel : nat) (colCount cellCount i : Z) (columns : Columns) :
  cellCount <= 0 ->
  (Z.to_nat (colCount - i) < fuel)%nat ->
  fillOuter fuel colCount cellCount i columns = Ret columns.
Proof.
  revert i. induction fuel as [|fuel IH]; intros i Hc Hfuel; [lia|].
  cbn [fillOuter]. destruct (i <? colCount) eqn:E; [|reflexivity].
  apply Z.ltb_lt in E.
  rewrite fillInner_exit by auto. cbn [obind fst snd].
  apply IH; auto. lia.
Qed.

Lemma fillNulls_empty_feed (colCount : Z) (columns : Columns) :
  fillNulls colCount 0 columns = Ret columns.
Proof.
  unfold fillNulls. apply fillOuter_idle; lia.
Qed.

Lemma fillNulls_throws (colCount cellCount : Z) (columns : Columns) :
  0 < colCount -> 0 < cellCount ->
  fillNulls colCount cellCount columns = Throw TypeError.
Proof.
  intros Hcol Hcell. unfold fillNulls. cbn [fillOuter].
  apply Z.ltb_lt in Hcol as Hcol'. rewrite Hcol'.
  rewrite fillInner_throws; auto; simpl; lia.
Qed.

(** ** The assignment loop never runs out of fuel and throws TypeError only *)

Lemma cellValue_fuel (inner : GsCell) : cellValue inner <> OutOfFuel.
Proof.
  unfold cellValue.
  destruct (numericValue inner) as [[|c nv]|]; destruct (text inner) as [[|c' t]|];
    try discriminate;
    repeat match goal with |- context [if ?b then _ else _] => destruct b end;
    discriminate.
Qed.

Lemma assignCell_fuel (o : Options) (columns : Columns) (cell : Entry) :
  assignCell o columns cell <> OutOfFuel.
Proof.
  unfold assignCell. destruct (inWindow o cell); [|discriminate].
  pose proof (cellValue_fuel (cellInner cell)) as Hv.
  destruct (cellValue (cellInner cell)); simpl; try congruence.
  destruct (JSArray.get columns _); discriminate.
Qed.

Lemma assignCells_fuel (o : Options) (cells : list Entry) (columns : Columns) :
  assignCells o columns cells <> OutOfFuel.
Proof.
  revert columns. induction cells as [|c cells IH]; intros columns; simpl.
  - discriminate.
  - pose proof (assignCell_fuel o columns c) as Hc.
    destruct (assignCell o columns c); simpl; [apply IH | discriminate | congruence].
Qed.

(** [getSheetColumns] always completes: it returns or it throws. *)
Lemma getSheetColumns_completes (o : Options) (json : JSON) :
  getSheetColumns o json <> OutOfFuel.
Proof.
  unfold getSheetColumns, buildColumns.
  pose proof (assignCells_fuel o (cellsOf json)
                (allocColumns o (colCountOf (cellsOf json)))) as Hb.
  destruct (assignCells o _ (cellsOf json)) as [columns|e|]; simpl; try congruence.
  unfold cellCountOf.
  destruct (cellsOf json) as [|c cells] eqn:E.
  - simpl length. rewrite fillNulls_empty_feed. discriminate.
  - pose proof (colCountOf_nonneg (c :: cells)) as Hn.
    destruct (decide (0 < colCountOf (c :: cells))) as [Hpos|Hz].
    + rewrite fillNulls_throws; [discriminate|auto|simpl length; lia].
    + unfold fillNulls.
      replace (colCountOf (c :: cells)) with 0 by lia. simpl. discriminate.
Qed.

(** On a feed with at least one cell whose [col] is 1 or more, the builder
    never returns: the null fill throws, unless the assignment loop has
    thrown before it. *)
Lemma getSheetColumns_throws (o : Options) (json : JSON) (c : Entry) :
  c ∈ cellsOf json -> 1 <= col (gs_cell c) ->
  getSheetColumns o json = Throw TypeError.
Proof.
  intros Hin Hcol. unfold getSheetColumns.
  destruct (buildColumns o json) as [columns|e|] eqn:E; simpl.
  - apply fillNulls_throws.
    + pose proof (colCountOf_elem _ _ Hin). lia.
    + unfold cellCountOf. destruct (cellsOf json); [inversion Hin|simpl length; lia].
  - destruct e. reflexivity.
  - exfalso. eapply assignCells_fuel. exact E.
Qed.

(** ** [indexOf] and containment *)

Lemma indexOfFrom_spec (c : ascii) (s : string) (pos : Z) :
  0 <= pos ->
  (contains s c -> pos <= indexOfFrom s c pos) /\
  (~ contains s c -> indexOfFrom s c pos = -1).
Proof.
  unfold contains. revert pos. induction s as [|c' s IH]; intros pos Hpos; simpl.
  - split; [intros []|reflexivity].
  - destruct (Ascii.eqb_spec c' c) as [->|Hne].
    + split; [lia|]. intros H. exfalso. apply H. now left.
    + destruct (IH (pos + 1)) as [IH1 IH2]; [lia|]. split.
      * intros [H|H]; [congruence|]. specialize (IH1 H). lia.
      * intros H. apply IH2. intros H'. apply H. now right.
Qed.

Lemma contains_dec (s : string) (c : ascii) : contains s c \/ ~ contains s c.
Proof.
  unfold contains. destruct (in_dec ascii_dec c (list_ascii_of_string s)); auto.
Qed.

Lemma indexOf_contains (s : string) (c : ascii) :
  (0 <=? indexOf s c) = true <-> contains s c.
Proof.
  unfold indexOf. destruct (indexOfFrom_spec c s 0) as [H1 H2]; [lia|].
  rewrite Z.leb_le. split.
  - intros H. destruct (contains_dec s c) as [Hc|Hc]; auto.
    rewrite (H2 Hc) in H. lia.
  - auto.
Qed.

Lemma indexOf_not_contains (s : string) (c : ascii) :
  (0 <=? indexOf s c) = false <-> ~ contains s c.
Proof.
  rewrite <- indexOf_contains. destruct (0 <=? indexOf s c); split; congruence.
Qed.

(** [indexOf] is positive exactly when the first character is another one
    and the character occurs later. *)
Lemma indexOf_positive (s : string) (c : ascii) :
  (0 <? indexOf s c) = true <->
  exists c0 rest, s = String c0 rest /\ c0 <> c /\ contains rest c.
Proof.
  unfold indexOf. rewrite Z.ltb_lt. destruct s as [|c0 rest]; simpl.
  - split; [lia|]. intros (? & ? & H & _). discriminate.
  - destruct (Ascii.eqb_spec c0 c) as [->|Hne].
    + split; [lia|]. intros (? & ? & H & Hn & _). inversion H; subst. congruence.
    + change (0 + 1) with 1.
      destruct (indexOfFrom_spec c rest 1) as [H1 H2]; [lia|]. split.
      * intros H. exists c0, rest. repeat split; auto.
        destruct (contains_dec rest c) as [Hc|Hc]; auto.
        rewrite (H2 Hc) in H. lia.
      * intros (? & ? & H & _ & Hc). inversion H; subst. specialize (H1 Hc). lia.
Qed.

(** ** The allocation loop *)

Lemma allocStep_keeps (o : Options) (columns : Columns) (i : Z) (k : nat) :
  is_Some (JSArray.get columns k) ->
  is_Some (JSArray.get (allocStep o columns i) k).
Proof.
  intros H. unfold allocStep.
  destruct ((startColumn o <=? i) && (i <=? endColumn o)); auto.
  destruct (decide (Z.to_nat (i - startColumn o) = k)) as [<-|Hne].
  - rewrite get_set_eq. eauto.
  - rewrite get_set_ne; auto.
Qed.

Lemma alloc_fold_keeps (o : Options) (l : list Z) (columns : Columns) (k : nat) :
  is_Some (JSArray.get columns k) ->
  is_Some (JSArray.get (fold_left (allocStep o) l columns) k).
Proof.
  revert columns. induction l as [|i l IH]; intros columns H; simpl; auto.
  apply IH, allocStep_keeps, H.
Qed.

Lemma alloc_fold_covers (o : Options) (l : list Z) (columns : Columns) (i : Z) :
  i ∈ l -> startColumn o <= i <= endColumn o ->
  is_Some (JSArray.get (fold_left (allocStep o) l columns)
                       (Z.to_nat (i - startColumn o))).
Proof.
  revert columns. induction l as [|i' l IH]; intros columns Hin Hr.
  - inversion Hin.
  - simpl. apply elem_of_cons in Hin as [->|Hin]; [|apply IH; auto].
    apply alloc_fold_keeps. unfold allocStep.
    replace ((startColumn o <=? i') && (i' <=? endColumn o)) with true
      by (symmetry; apply andb_true_iff; split; apply Z.leb_le; lia).
    rewrite get_set_eq. eauto.
Qed.

(** The second loop allocates the column of every 0-based index below
    [colCount] that lies in the column window. *)
Lemma allocColumns_covers (o : Options) (colCount i : Z) :
  0 <= i < colCount -> startColumn o <= i <= endColumn o ->
  is_Some (JSArray.get (allocColumns o colCount) (Z.to_nat (i - startColumn o))).
Proof.
  intros Hi Hr. apply alloc_fold_covers; auto.
  apply elem_of_seqZ. lia.
Qed.

Lemma allocStep_empty (o : Options) (columns : Columns) (i : Z) :
  allColumnsEmpty columns -> allColumnsEmpty (allocStep o columns i).
Proof.
  intros H k column. unfold allocStep.
  destruct ((startColumn o <=? i) && (i <=? endColumn o)); [|apply H].
  destruct (decide (Z.to_nat (i - startColumn o) = k)) as [<-|Hne].
  - rewrite get_set_eq. intros E. inversion E. reflexivity.
  - rewrite get_set_ne by auto. apply H.
Qed.

Lemma alloc_fold_empty (o : Options) (l : list Z) (columns : Columns) :
  allColumnsEmpty columns -> allColumnsEmpty (fold_left (allocStep o) l columns).
Proof.
  revert columns. induction l as [|i l IH]; intros columns H; simpl; auto.
  apply IH, allocStep_empty, H.
Qed.

Lemma allocColumns_empty (o : Options) (colCount : Z) :
  allColumnsEmpty (allocColumns o colCount).
Proof.
  apply alloc_fold_empty. intros k column H.
  unfold JSArray.get in H. rewrite lookup_nil in H. discriminate.
Qed.

(** ** The assignment loop *)

Lemma assignCell_outside (o : Options) (columns : Columns) (cell : Entry) :
  inWindow o cell = false -> assignCell o columns cell = Ret columns.
Proof. intros H. unfold assignCell. rewrite H. reflexivity. Qed.

Lemma assignCells_outside (o : Options) (cells : list Entry) (columns : Columns) :
  (forall c, c ∈ cells -> inWindow o c = false) ->
  assignCells o columns cells = Ret columns.
Proof.
  induction cells as [|c cells IH]; intros H; simpl; auto.
  rewrite assignCell_outside by (apply H; left). simpl.
  apply IH. intros c' Hc'. apply H. now right.
Qed.

Lemma assignCell_keeps (o : Options) (columns columns' : Columns) (cell : Entry)
    (k : nat) :
  assignCell o columns cell = Ret columns' ->
  is_Some (JSArray.get columns k) -> is_Some (JSArray.get columns' k).
Proof.
  unfold assignCell. intros H Hk.
  destruct (inWindow o cell); [|inversion H; subst; auto].
  destruct (cellValue (cellInner cell)) as [v|e|]; simpl in H; try discriminate.
  destruct (JSArray.get columns (Z.to_nat (col (gs_cell cell) - 1 - startColumn o)))
    as [column|] eqn:E; [|discriminate].
  inversion H; subst.
  destruct (decide (Z.to_nat (col (gs_cell cell) - 1 - startColumn o) = k)) as [<-|Hne].
  - rewrite get_set_eq. eauto.
  - rewrite get_set_ne; auto.
Qed.

Lemma assignCells_keeps (o : Options) (cells : list Entry)
    (columns columns' : Columns) (k : nat) :
  assignCells o columns cells = Ret columns' ->
  is_Some (JSArray.get columns k) -> is_Some (JSArray.get columns' k).
Proof.
  revert columns. induction cells as [|c cells IH]; intros columns H Hk; simpl in H.
  - inversion H; subst; auto.
  - destruct (assignCell o columns c) as [columns1|e|] eqn:E; simpl in H;
      try discriminate.
    eapply IH; eauto. eapply assignCell_keeps; eauto.
Qed.

(** ** The value of a cell *)



Lemma cellValue_plain (inner : GsCell) (nv t : string) :
  numericValue inner = Some nv -> truthy (Some nv) = true ->
  text inner = Some t ->
  ~ contains t "/" -> ~ contains t "-" ->
  (0 <? indexOf t "%") = false ->
  cellValue inner = Ret (VNumber (Num.parseFloat nv)).
Proof.
  intros Hnv Htr Ht H1 H2 Hp. unfold cellValue. rewrite Hnv, Ht.
  destruct nv as [|c nv]; [discriminate|].
  apply indexOf_not_contains in H1, H2. rewrite H1, H2, Hp. reflexivity.
Qed.

(** ** The load cycle *)

Lemma cellsOf_nil (json : JSON) :
  cellsOf json = [] -> feed_entry json = None \/ feed_entry json = Some [].
Proof.
  unfold cellsOf. destruct (feed_entry json) as [[|c cells]|]; auto. discriminate.
Qed.

Lemma parseSheet_empty (json : JSON) (w : World) :
  cellsOf json = [] -> parseSheet json w = (Ret (Some false), w).
Proof.
  intros H. unfold parseSheet.
  destruct (cellsOf_nil json H) as [-> | ->]; reflexivity.
Qed.

Lemma world_eta (w : World) : {| store := store w; trace := trace w |} = w.
Proof. destruct w. reflexivity. Qed.

Lemma load_without_key (nts : Num.t -> string) (w : World) :
  googleSpreadsheetKey (options (store w)) = EmptyString -> load nts w = (Ret tt, w).
Proof.
  intros H. unfold load, mbind, getStore. rewrite H. reflexivity.
Qed.

Lemma load_with_key (nts : Num.t -> string) (w : World) :
  googleSpreadsheetKey (options (store w)) <> EmptyString ->
  load nts w = fetchSheet nts w.
Proof.
  intros H. unfold load, mbind, getStore.
  destruct (googleSpreadsheetKey (options (store w))); [congruence|reflexivity].
Qed.

(** The third loop alone leaves holes: nothing before the null fill puts a
    [null] above a cell of row 3. *)
Example buildColumns_leaves_holes :
  buildColumns defaultOptions (singleCell 3 1 (Some "5") (Some "5"))
    = Ret [Some [None; None; Some (VNumber (Num.ofZ 5))]] /\
  ~ noHoles ([None; None; Some (VNumber (Num.ofZ 5))] : Column).
Proof.
  split; [reflexivity|].
  intros H. destruct (H 0%nat) as [v Hv]; [simpl; lia|discriminate].
Qed.

(** * The statements of the specification, claim by claim *)

(** C1, as the code behaves. On a payload whose feed has no entry,
    [parseSheet] returns [false] and emits nothing, but the default function
    of 'load' drops that result and goes on: it derives the headers from the
    columns the store still holds, builds a table from them, schedules the
    next fetch when polling is on and emits 'afterLoad'. The cycle is not
    aborted. *)
Theorem C1_empty_feed_cycle_goes_on (nts : Num.t -> string) (r : Request)
    (json : JSON) (w : World) (headers : list string) :
  cellsOf json = [] ->
  headersOf nts (columns (store w)) = Ret headers ->
  respond nts r (Success json) w =
    (Ret tt,
     {| store := store w;
        trace :=
          trace w ++
          [Emit (EvLoad json (reqEnablePolling r) (reqDataRefreshRate r));
           BuildTable (columnArrayToDataTable (columns (store w)) headers)] ++
          (if reqEnablePolling r
           then [SetTimeout (Num.mul (reqDataRefreshRate r) (Num.ofZ 1000))]
           else []) ++
          [Emit (EvAfterLoad (columnArrayToDataTable (columns (store w)) headers))]
     |}).
Proof.
  intros Hnil Hh.
  unfold respond, onSuccess, loadDefault, fireEvent.
  unfold mbind, effect, getStore, lift, mret.
  rewrite parseSheet_empty by exact Hnil. cbn [store trace].
  rewrite Hh.
  destruct (reqEnablePolling r); cbn [store trace];
    rewrite <- !app_assoc; reflexivity.
Qed.

Lemma C1_empty_feed_cycle_goes_on_witness :
  cellsOf (mkJSON (Some [])) = [] /\
  headersOf (fun _ => EmptyString) (columns (store (freshWorld (keyOnly (Some "key"))))) = Ret [] /\
  respond (fun _ => EmptyString) (mkRequest "u" true (Num.ofZ 2)) (Success (mkJSON (Some [])))
      (freshWorld (keyOnly (Some "key"))) =
    (Ret tt,
     {| store := store (freshWorld (keyOnly (Some "key")));
        trace :=
          [Emit (EvLoad (mkJSON (Some [])) true (Num.ofZ 2));
           BuildTable (mkDataTable [] []);
           SetTimeout (Num.mul (Num.ofZ 2) (Num.ofZ 1000));
           Emit (EvAfterLoad (mkDataTable [] []))] |}).
Proof.
  split; [reflexivity|]. split; [reflexivity|].
  apply (C1_empty_feed_cycle_goes_on (fun _ => EmptyString) (mkRequest "u" true (Num.ofZ 2))
           (mkJSON (Some [])) (freshWorld (keyOnly (Some "key"))) []);
    reflexivity.
Defined.

(** C2, as the code behaves. On every feed that has an entry, with 1-based
    columns, [getSheetColumns] returns no Column Set at all: the inner loop
    of the null fill advances [i] where it should advance [j], walks off the
    end of [columns] and throws a TypeError. *)
Theorem C2_nonempty_feed_never_returns (o : Options) (json : JSON) :
  cellsOf json <> [] ->
  (forall c, c ∈ cellsOf json -> 1 <= col (gs_cell c)) ->
  getSheetColumns o json = Throw TypeError.
Proof.
  intros Hne Hcol.
  destruct (cellsOf json) as [|c cells] eqn:E; [congruence|].
  apply (getSheetColumns_throws o json c).
  - rewrite E. left.
  - apply Hcol. left.
Qed.

Lemma C2_nonempty_feed_never_returns_witness :
  cellsOf (singleCell 1 1 (Some "5") (Some "5")) <> [] /\
  (forall c, c ∈ cellsOf (singleCell 1 1 (Some "5") (Some "5")) ->
             1 <= col (gs_cell c)) /\
  getSheetColumns defaultOptions (singleCell 1 1 (Some "5") (Some "5"))
    = Throw TypeError.
Proof.
  assert (forall c, c ∈ cellsOf (singleCell 1 1 (Some "5") (Some "5")) ->
                    1 <= col (gs_cell c)) as Hcol.
  { intros c Hc. apply list_elem_of_singleton in Hc. subst c. simpl. lia. }
  split; [discriminate|]. split; [exact Hcol|].
  apply (C2_nonempty_feed_never_returns defaultOptions
           (singleCell 1 1 (Some "5") (Some "5"))); [discriminate|exact Hcol].
Defined.

(** C3, as the code behaves. For the feed of the single cell at row 1,
    column 1 with numeric value 5 and a display text without '/', '-' and
    '%', under the default window, the first three loops leave the array
    [[5]], and then the null fill throws: [getSheetColumns] does not
    return [[5]]. *)
Theorem C3_single_cell_builds_then_throws (t : string) :
  ~ contains t "/" -> ~ contains t "-" -> ~ contains t "%" ->
  buildColumns defaultOptions (singleCell 1 1 (Some "5") (Some t))
    = Ret [Some [Some (VNumber (Num.ofZ 5))]] /\
  getSheetColumns defaultOptions (singleCell 1 1 (Some "5") (Some t))
    = Throw TypeError.
Proof.
  intros H1 H2 H3. split.
  - assert (cellValue (mkGsCell 1 1 (Some "5") (Some t))
            = Ret (VNumber (Num.parseFloat "5"))) as Hv.
    { apply (cellValue_plain _ "5" t); auto.
      destruct (0 <? indexOf t "%") eqn:E; [|reflexivity].
      apply indexOf_positive in E as (c0 & rest & -> & _ & Hc).
      exfalso. apply H3. right. exact Hc. }
    unfold buildColumns, singleCell, cellsOf, cellAt. cbn [feed_entry].
    change (allocColumns defaultOptions _) with ([Some []] : Columns).
    cbn [assignCells]. unfold assignCell, cellInner. cbn [gs_cell].
    change (inWindow defaultOptions _) with true. cbv iota.
    rewrite Hv. reflexivity.
  - apply (getSheetColumns_throws defaultOptions _
             (cellAt 1 1 (Some "5") (Some t))).
    + left.
    + simpl. lia.
Qed.

Lemma C3_single_cell_builds_then_throws_witness :
  ~ contains "5" "/" /\ ~ contains "5" "-" /\ ~ contains "5" "%" /\
  buildColumns defaultOptions (singleCell 1 1 (Some "5") (Some "5"))
    = Ret [Some [Some (VNumber (Num.ofZ 5))]] /\
  getSheetColumns defaultOptions (singleCell 1 1 (Some "5") (Some "5"))
    = Throw TypeError.
Proof.
  assert (~ contains "5" "/") as H1 by (intros [H|[]]; discriminate).
  assert (~ contains "5" "-") as H2 by (intros [H|[]]; discriminate).
  assert (~ contains "5" "%") as H3 by (intros [H|[]]; discriminate).
  split; [exact H1|]. split; [exact H2|]. split; [exact H3|].
  apply (C3_single_cell_builds_then_throws "5" H1 H2 H3).
Defined.

(** C7. [load] issues a request exactly when the configured key is a
    non-empty string, and then it is [fetchSheet]: one request, no event,
    the store as it was. With the empty key, and so with a key left out of
    the constructor's options, [load] changes nothing. *)
Theorem C7_load_fetches_iff_key (nts : Num.t -> string) (w : World) :
  (trace (snd (load nts w)) <> trace w <->
   googleSpreadsheetKey (options (store w)) <> EmptyString) /\
  (googleSpreadsheetKey (options (store w)) <> EmptyString ->
   load nts w =
     (Ret tt,
      {| store := store w;
         trace := trace w ++
           [Ajax {| url := join "/"
                      [ "https://spreadsheets.google.com/feeds/cells";
                        googleSpreadsheetKey (options (store w));
                        nts (worksheet (options (store w)));
                        "public/values?alt=json" ];
                    reqEnablePolling := enablePolling (options (store w));
                    reqDataRefreshRate := dataRefreshRate (options (store w)) |}]
      |})) /\
  (googleSpreadsheetKey (options (store w)) = EmptyString -> load nts w = (Ret tt, w)) /\
  (forall (tbl : DataTable) (p : PartialOptions) (tr : list Effect),
     p_googleSpreadsheetKey p = None ->
     load nts (mkWorld (newStore tbl p) tr) = (Ret tt, mkWorld (newStore tbl p) tr)).
Proof.
  assert (googleSpreadsheetKey (options (store w)) <> EmptyString ->
          load nts w =
            (Ret tt,
             {| store := store w;
                trace := trace w ++
                  [Ajax {| url := join "/"
                             [ "https://spreadsheets.google.com/feeds/cells";
                               googleSpreadsheetKey (options (store w));
                               nts (worksheet (options (store w)));
                               "public/values?alt=json" ];
                           reqEnablePolling := enablePolling (options (store w));
                           reqDataRefreshRate := dataRefreshRate (options (store w)) |}]
             |})) as Hkey.
  { intros H. rewrite load_with_key by exact H. reflexivity. }
  split; [|split; [exact Hkey|split]].
  - split.
    + intros Htr Hk. apply Htr. rewrite load_without_key by exact Hk. reflexivity.
    + intros Hk. rewrite (Hkey Hk). cbn [snd trace]. intros Heq.
      apply (f_equal (@length Effect)) in Heq.
      rewrite length_app in Heq. simpl in Heq. lia.
  - apply load_without_key.
  - intros tbl p tr Hp. apply load_without_key.
    cbn [store options newStore merge googleSpreadsheetKey]. rewrite Hp. reflexivity.
Qed.

Lemma C7_load_fetches_iff_key_witness :
  load (fun _ => "1") (freshWorld (keyOnly (Some EmptyString)))
    = (Ret tt, freshWorld (keyOnly (Some EmptyString))) /\
  load (fun _ => "1") (freshWorld (keyOnly None))
    = (Ret tt, freshWorld (keyOnly None)) /\
  load (fun _ => "1") (freshWorld (keyOnly (Some "k"))) =
    (Ret tt,
     {| store := store (freshWorld (keyOnly (Some "k")));
        trace :=
          [Ajax {| url := "https://spreadsheets.google.com/feeds/cells/k/1/public/values?alt=json";
                   reqEnablePolling := false;
                   reqDataRefreshRate := Num.ofZ 2 |}] |}).
Proof.
  split; [|split].
  - apply (proj1 (proj2 (proj2
             (C7_load_fetches_iff_key (fun _ => "1") (freshWorld (keyOnly (Some EmptyString))))))).
    reflexivity.
  - apply (proj2 (proj2 (proj2
             (C7_load_fetches_iff_key (fun _ => "1") (freshWorld (keyOnly None)))))
             (mkDataTable [] []) (keyOnly None) []).
    reflexivity.
  - apply (proj1 (proj2
             (C7_load_fetches_iff_key (fun _ => "1") (freshWorld (keyOnly (Some "k")))))).
    discriminate.
Defined.

(** C8. On a transport failure the error callback emits one 'fail' event
    that carries the error text, and nothing else happens: the callback
    returns normally, the store is as it was, no table is built and no
    timer is set, whatever the polling option of the request. *)
Theorem C8_transport_failure_emits_fail (nts : Num.t -> string) (r : Request)
    (xhr : unit) (text : string) (w : World) :
  respond nts r (Failure xhr text) w =
    (Ret tt, {| store := store w; trace := trace w ++ [Emit (EvFail text)] |}).
Proof. reflexivity. Qed.

(** C10. On a payload whose [feed.entry] is missing or has no entry,
    [parseSheet] returns [false] and leaves the world as it was: the
    [columns] of the store are the ones held before, and nothing is
    emitted. *)
Theorem C10_parseSheet_empty_feed (json : JSON) (w : World) :
  feed_entry json = None \/ feed_entry json = Some [] ->
  parseSheet json w = (Ret (Some false), w) /\
  columns (store (snd (parseSheet json w))) = columns (store w) /\
  trace (snd (parseSheet json w)) = trace w.
Proof.
  intros H.
  assert (parseSheet json w = (Ret (Some false), w)) as E.
  { unfold parseSheet. destruct H as [-> | ->]; reflexivity. }
  rewrite E. auto.
Qed.

Lemma C10_parseSheet_empty_feed_witness :
  parseSheet (mkJSON (Some []))
    (mkWorld (mkStore (mkDataTable [] []) defaultOptions [Some [Some VNull]]) [])
  = (Ret (Some false),
     mkWorld (mkStore (mkDataTable [] []) defaultOptions [Some [Some VNull]]) []).
Proof.
  apply (C10_parseSheet_empty_feed (mkJSON (Some []))
           (mkWorld (mkStore (mkDataTable [] []) defaultOptions [Some [Some VNull]]) [])).
  right. reflexivity.
Defined.

(** * Further properties of the column builder *)

(** ** Helper facts *)

Lemma fold_max_col_bounded (cells : list Entry) (acc : Z) :
  (forall c, c ∈ cells -> col (gs_cell c) <= acc) ->
  fold_left (fun colCount cell => Z.max colCount (col (gs_cell cell))) cells acc = acc.
Proof.
  revert acc. induction cells as [|c cells IH]; intros acc H; simpl; auto.
  assert (col (gs_cell c) <= acc) as Hc by (apply H; left).
  replace (Z.max acc (col (gs_cell c))) with acc by lia.
  apply IH. intros c' Hc'. apply H. now right.
Qed.

Lemma fold_max_col_attained (cells : list Entry) (acc : Z) :
  fold_left (fun colCount cell => Z.max colCount (col (gs_cell cell))) cells acc = acc \/
  exists c, c ∈ cells /\
    col (gs_cell c) =
    fold_left (fun colCount cell => Z.max colCount (col (gs_cell cell))) cells acc.
Proof.
  revert acc. induction cells as [|c cells IH]; intros acc; simpl; auto.
  destruct (IH (Z.max acc (col (gs_cell c)))) as [E|(c' & Hin & E)].
  - rewrite E. destruct (Z.max_spec acc (col (gs_cell c))) as [[_ ->]|[_ ->]].
    + right. exists c. split; [left|reflexivity].
    + now left.
  - right. exists c'. split; [now right|exact E].
Qed.

Lemma assignCell_nil (o : Options) (cell : Entry) (columns' : Columns) :
  assignCell o [] cell = Ret columns' ->
  inWindow o cell = false /\ columns' = [].
Proof.
  unfold assignCell. destruct (inWindow o cell).
  - destruct (cellValue (cellInner cell)); simpl; discriminate.
  - intros H. inversion H. auto.
Qed.

Lemma assignCells_nil (o : Options) (cells : list Entry) (columns' : Columns) :
  assignCells o [] cells = Ret columns' ->
  columns' = [] /\ forall c, c ∈ cells -> inWindow o c = false.
Proof.
  induction cells as [|c cells IH]; simpl; intros H.
  - inversion H. split; [reflexivity|]. intros c Hc. inversion Hc.
  - destruct (assignCell o [] c) as [columns1|e|] eqn:E; simpl in H; try discriminate.
    apply assignCell_nil in E as [Hout ->].
    destruct (IH H) as [-> Hrest]. split; [reflexivity|].
    intros c' Hc'. apply elem_of_cons in Hc' as [->|Hc']; auto.
Qed.

Lemma assignCells_throw (o : Options) (cells : list Entry) (columns : Columns)
    (e : exn) :
  assignCells o columns cells = Throw e -> e = TypeError.
Proof. destruct e. reflexivity. Qed.

Lemma assignCells_app (o : Options) (l1 l2 : list Entry) (columns : Columns) :
  assignCells o columns (l1 ++ l2) =
  (columns1 <- assignCells o columns l1 ;; assignCells o columns1 l2)%outcome.
Proof.
  revert columns. induction l1 as [|c l1 IH]; intros columns; simpl; auto.
  destruct (assignCell o columns c); simpl; auto.
Qed.

Lemma assignCell_length (o : Options) (columns columns' : Columns) (cell : Entry) :
  assignCell o columns cell = Ret columns' -> length columns' = length columns.
Proof.
  unfold assignCell. intros H.
  destruct (inWindow o cell); [|inversion H; reflexivity].
  destruct (cellValue (cellInner cell)) as [v|e|]; simpl in H; try discriminate.
  destruct (JSArray.get columns (Z.to_nat (col (gs_cell cell) - 1 - startColumn o)))
    as [column|] eqn:E; [|discriminate].
  inversion H; subst. apply get_lt_length in E. rewrite length_set. lia.
Qed.

Lemma assignCell_allocated_back (o : Options) (columns columns' : Columns)
    (cell : Entry) (k : nat) :
  assignCell o columns cell = Ret columns' ->
  is_Some (JSArray.get columns' k) -> is_Some (JSArray.get columns k).
Proof.
  unfold assignCell. intros H Hk.
  destruct (inWindow o cell); [|inversion H; subst; auto].
  destruct (cellValue (cellInner cell)) as [v|e|]; simpl in H; try discriminate.
  destruct (JSArray.get columns (Z.to_nat (col (gs_cell cell) - 1 - startColumn o)))
    as [column|] eqn:E; [|discriminate].
  inversion H; subst.
  destruct (decide (Z.to_nat (col (gs_cell cell) - 1 - startColumn o) = k)) as [<-|Hne].
  - rewrite E. eauto.
  - rewrite get_set_ne in Hk; auto.
Qed.

Lemma assignCell_get2_other (o : Options) (columns columns' : Columns)
    (cell : Entry) (k r : nat) :
  assignCell o columns cell = Ret columns' ->
  (inWindow o cell = true -> (columnIndex o cell, rowIndex o cell) <> (k, r)) ->
  JSArray.get2 columns' k r = JSArray.get2 columns k r.
Proof.
  unfold assignCell, columnIndex, rowIndex. intros H Hne.
  destruct (inWindow o cell); [|inversion H; reflexivity].
  specialize (Hne eq_refl).
  destruct (cellValue (cellInner cell)) as [v|e|]; simpl in H; try discriminate.
  destruct (JSArray.get columns (Z.to_nat (col (gs_cell cell) - 1 - startColumn o)))
    as [column|] eqn:E; [|discriminate].
  inversion H; subst. unfold JSArray.get2.
  destruct (decide (Z.to_nat (col (gs_cell cell) - 1 - startColumn o) = k)) as [Hk|Hk].
  - subst k. rewrite get_set_eq, E. apply get_set_ne. congruence.
  - rewrite get_set_ne by exact Hk. reflexivity.
Qed.

Lemma assignCells_get2_other (o : Options) (cells : list Entry)
    (columns columns' : Columns) (k r : nat) :
  assignCells o columns cells = Ret columns' ->
  (forall c, c ∈ cells -> inWindow o c = true ->
             (columnIndex o c, rowIndex o c) <> (k, r)) ->
  JSArray.get2 columns' k r = JSArray.get2 columns k r.
Proof.
  revert columns. induction cells as [|c cells IH]; intros columns H Hne; simpl in H.
  - inversion H. reflexivity.
  - destruct (assignCell o columns c) as [columns1|e|] eqn:E; simpl in H;
      try discriminate.
    rewrite (IH columns1 H) by (intros c' Hc'; apply Hne; now right).
    eapply assignCell_get2_other; [exact E|]. apply Hne. left.
Qed.

Lemma cellValue_returns (inner : GsCell) :
  (truthy (numericValue inner) = true -> text inner <> None) ->
  exists v, cellValue inner = Ret v.
Proof.
  unfold cellValue. intros H.
  destruct (numericValue inner) as [[|c nv]|]; simpl in H.
  - destruct (text inner) as [[|c' t]|]; eauto.
  - destruct (text inner) as [t|]; [|exfalso; apply H; reflexivity].
    repeat match goal with |- context [if ?b then _ else _] => destruct b end; eauto.
  - destruct (text inner) as [[|c' t]|]; eauto.
Qed.

Lemma assignCells_returns (o : Options) (cells : list Entry) (columns : Columns) :
  (forall c, c ∈ cells -> inWindow o c = true ->
             is_Some (JSArray.get columns (columnIndex o c))) ->
  (forall c, c ∈ cells ->
             truthy (numericValue (gs_cell c)) = true -> text (gs_cell c) <> None) ->
  exists columns', assignCells o columns cells = Ret columns'.
Proof.
  revert columns. induction cells as [|c cells IH]; intros columns Ha Ht; simpl; eauto.
  assert (exists columns1, assignCell o columns c = Ret columns1) as [columns1 E].
  { unfold assignCell, cellInner. destruct (inWindow o c) eqn:Hw; eauto.
    destruct (cellValue_returns (gs_cell c)) as [v ->]; [apply Ht; left|]. simpl.
    destruct (Ha c) as [column Hc]; [left|exact Hw|].
    unfold columnIndex in Hc. rewrite Hc. eauto. }
  rewrite E. simpl. apply IH.
  - intros c' Hc' Hw. eapply assignCell_keeps; [exact E|]. apply Ha; auto. now right.
  - intros c' Hc'. apply Ht. now right.
Qed.

Lemma allocColumns_dense_nat (o : Options) (n : nat) :
  0 <= startColumn o ->
  allocColumns o (Z.of_nat n) =
  replicate (Z.to_nat (Z.min (Z.of_nat n) (endColumn o + 1) - startColumn o)) (Some []).
Proof.
  intros Hs. unfold allocColumns. induction n as [|n IH].
  - replace (Z.to_nat (Z.min (Z.of_nat 0) (endColumn o + 1) - startColumn o))
      with 0%nat by lia.
    reflexivity.
  - rewrite seqZ_S, fold_left_app, IH. cbn [fold_left]. unfold allocStep.
    rewrite Z.add_0_l.
    destruct ((startColumn o <=? Z.of_nat n) && (Z.of_nat n <=? endColumn o)) eqn:E.
    + apply andb_true_iff in E as [E1 E2]. apply Z.leb_le in E1, E2.
      replace (Z.to_nat (Z.min (Z.of_nat n) (endColumn o + 1) - startColumn o))
        with (Z.to_nat (Z.of_nat n - startColumn o)) by lia.
      replace (Z.to_nat (Z.min (Z.of_nat (S n)) (endColumn o + 1) - startColumn o))
        with (S (Z.to_nat (Z.of_nat n - startColumn o))) by lia.
      unfold JSArray.set. rewrite length_replicate.
      destruct (decide (Z.to_nat (Z.of_nat n - startColumn o)
                        < Z.to_nat (Z.of_nat n - startColumn o))%nat); [lia|].
      rewrite Nat.sub_diag, replicate_S_end. reflexivity.
    + f_equal. apply andb_false_iff in E as [E|E].
      * apply Z.leb_gt in E. lia.
      * apply Z.leb_gt in E. lia.
Qed.

Lemma assignCells_length (o : Options) (cells : list Entry)
    (columns columns' : Columns) :
  assignCells o columns cells = Ret columns' -> length columns' = length columns.
Proof.
  revert columns. induction cells as [|c cells IH]; intros columns H; simpl in H.
  - inversion H. reflexivity.
  - destruct (assignCell o columns c) as [columns1|e|] eqn:E; simpl in H;
      try discriminate.
    rewrite (IH _ H). eapply assignCell_length; eauto.
Qed.

Lemma assignCells_allocated_back (o : Options) (cells : list Entry)
    (columns columns' : Columns) (k : nat) :
  assignCells o columns cells = Ret columns' ->
  is_Some (JSArray.get columns' k) -> is_Some (JSArray.get columns k).
Proof.
  revert columns. induction cells as [|c cells IH]; intros columns H Hk; simpl in H.
  - inversion H; subst; auto.
  - destruct (assignCell o columns c) as [columns1|e|] eqn:E; simpl in H;
      try discriminate.
    eapply assignCell_allocated_back; [exact E|]. eapply IH; eauto.
Qed.

Lemma allocColumns_get2 (o : Options) (colCount : Z) (k r : nat) :
  JSArray.get2 (allocColumns o colCount) k r = None.
Proof.
  unfold JSArray.get2.
  destruct (JSArray.get (allocColumns o colCount) k) as [column|] eqn:E; auto.
  apply allocColumns_empty in E. subst column. reflexivity.
Qed.

Lemma allocColumns_dense_Z (o : Options) (colCount : Z) :
  0 <= startColumn o ->
  allocColumns o colCount =
  replicate (Z.to_nat (Z.min colCount (endColumn o + 1) - startColumn o)) (Some []).
Proof.
  intros Hs. destruct (decide (0 <= colCount)) as [Hn|Hn].
  - rewrite <- (Z2Nat.id colCount Hn) at 1.
    rewrite allocColumns_dense_nat by exact Hs. rewrite Z2Nat.id by exact Hn.
    reflexivity.
  - unfold allocColumns. rewrite seqZ_nil by lia.
    replace (Z.to_nat (Z.min colCount (endColumn o + 1) - startColumn o))
      with 0%nat by lia.
    reflexivity.
Qed.

Lemma built_array_returns (o : Options) (json : JSON) :
  oneBased (cellsOf json) -> numbersHaveText (cellsOf json) ->
  exists columns, buildColumns o json = Ret columns.
Proof.
  intros Hcol Ht. unfold buildColumns. apply assignCells_returns; [|exact Ht].
  intros c Hin Hw. unfold columnIndex, inWindow in *.
  repeat (apply andb_true_iff in Hw as [Hw ?]).
  apply Z.leb_le in Hw. apply Z.leb_le in H1.
  apply allocColumns_covers; [|lia].
  pose proof (colCountOf_elem _ _ Hin). specialize (Hcol c Hin). lia.
Qed.

Lemma built_array_position (o : Options) (json : JSON)
    (pre post : list Entry) (cell : Entry) (columns : Columns) (v : DataValue) :
  cellsOf json = pre ++ cell :: post ->
  buildColumns o json = Ret columns ->
  inWindow o cell = true ->
  cellValue (gs_cell cell) = Ret v ->
  notOverwritten o cell post ->
  JSArray.get2 columns (columnIndex o cell) (rowIndex o cell) = Some v.
Proof.
  intros Hcells Hb Hw Hv Hlater. unfold buildColumns in Hb.
  rewrite Hcells in Hb at 2. rewrite assignCells_app in Hb.
  destruct (assignCells o _ pre) as [columns1|e|] eqn:E1; simpl in Hb;
    try discriminate.
  destruct (assignCell o columns1 cell) as [columns2|e|] eqn:E2; simpl in Hb;
    try discriminate.
  rewrite (assignCells_get2_other o post columns2 columns _ _ Hb Hlater).
  unfold assignCell, cellInner in E2. rewrite Hw, Hv in E2. simpl in E2.
  unfold columnIndex, rowIndex.
  destruct (JSArray.get columns1 (Z.to_nat (col (gs_cell cell) - 1 - startColumn o)))
    as [column|]; [|discriminate].
  inversion E2. apply get2_set_set.
Qed.

(** The array of [getSheetColumns] after its third loop, on a feed with
    1-based columns whose numeric entries have a text: the loops complete,
    the array is the one the null fill then works on, and the position of a
    cell of the window holds the value of the cell unless a later entry of
    the window has the same position. *)
Lemma built_array_holds (o : Options) (json : JSON)
    (pre post : list Entry) (cell : Entry) (v : DataValue) :
  cellsOf json = pre ++ cell :: post ->
  oneBased (cellsOf json) -> numbersHaveText (cellsOf json) ->
  inWindow o cell = true ->
  cellValue (gs_cell cell) = Ret v ->
  notOverwritten o cell post ->
  exists columns,
    buildColumns o json = Ret columns /\
    getSheetColumns o json
      = fillNulls (colCountOf (cellsOf json)) (cellCountOf json) columns /\
    JSArray.get2 columns (columnIndex o cell) (rowIndex o cell) = Some v.
Proof.
  intros Hcells Hone Htext Hw Hv Hlater.
  destruct (built_array_returns o json Hone Htext) as [columns Hb].
  exists columns. split; [exact Hb|]. split.
  - unfold getSheetColumns. rewrite Hb. reflexivity.
  - eapply built_array_position; eauto.
Qed.

Ltac single_entry :=
  let c := fresh "c" in
  let Hc := fresh "Hc" in
  intros c Hc; apply list_elem_of_singleton in Hc; subst c.

Ltac no_entry :=
  let c := fresh "c" in
  let Hc := fresh "Hc" in
  intros c Hc; inversion Hc.

(** ** The claims on what the builder stores *)

(** C4, as the code behaves. On a feed all of whose entries lie outside
    the window and one of whose entries has a [col] of 1 or more,
    [getSheetColumns] does not return the empty Column Set: it throws the
    TypeError of the null fill. The array its first three loops have built
    holds no value: with a start column of 0 or more it is made of one
    empty column for each index from [startColumn] to the smaller of
    [colCount - 1] and [endColumn], and so is the empty array when there is
    no such index. *)
Theorem C4_outside_window_throws (o : Options) (json : JSON) :
  (forall c, c ∈ cellsOf json -> inWindow o c = false) ->
  (exists c, c ∈ cellsOf json /\ 1 <= col (gs_cell c)) ->
  getSheetColumns o json = Throw TypeError /\
  (0 <= startColumn o ->
   buildColumns o json =
     Ret (replicate
            (Z.to_nat (Z.min (colCountOf (cellsOf json)) (endColumn o + 1)
                       - startColumn o))
            (Some []))).
Proof.
  intros Hout (c & Hin & Hc). split.
  - apply (getSheetColumns_throws o json c Hin Hc).
  - intros Hs. unfold buildColumns.
    rewrite assignCells_outside by exact Hout.
    rewrite allocColumns_dense_Z by exact Hs. reflexivity.
Qed.

Lemma C4_outside_window_throws_witness :
  getSheetColumns (fromColumn 5) (singleCell 1 1 (Some "5") (Some "5"))
    = Throw TypeError /\
  buildColumns (fromColumn 5) (singleCell 1 1 (Some "5") (Some "5")) = Ret [].
Proof.
  assert (forall c, c ∈ cellsOf (singleCell 1 1 (Some "5") (Some "5")) ->
                    inWindow (fromColumn 5) c = false) as Hout
    by (single_entry; reflexivity).
  assert (exists c, c ∈ cellsOf (singleCell 1 1 (Some "5") (Some "5")) /\
                    1 <= col (gs_cell c)) as Hcol
    by (exists (cellAt 1 1 (Some "5") (Some "5")); split; [left|simpl; lia]).
  destruct (C4_outside_window_throws (fromColumn 5)
              (singleCell 1 1 (Some "5") (Some "5")) Hout Hcol) as [Ht Hb].
  split; [exact Ht|]. apply Hb. simpl. lia.
Defined.








(** ** The builder as a whole *)

(** X1. [getSheetColumns] has two results only: the empty Column Set or a
    TypeError; it never returns a column. It returns (the empty set)
    exactly when no entry of the feed has a [col] of 1 or more and none
    lies in the window, which includes the feed without entries. *)
Theorem getSheetColumns_returns_only_empty (o : Options) (json : JSON) :
  (getSheetColumns o json = Ret [] \/ getSheetColumns o json = Throw TypeError) /\
  (getSheetColumns o json = Ret [] <->
   forall c, c ∈ cellsOf json -> col (gs_cell c) < 1 /\ inWindow o c = false).
Proof.
  destruct (decide (Exists (fun c => 1 <= col (gs_cell c)) (cellsOf json)))
    as [Hex|Hno].
  - apply list.Exists_exists in Hex as (c & Hin & Hc).
    rewrite (getSheetColumns_throws o json c Hin Hc). split; [now right|].
    split; [discriminate|]. intros H. destruct (H c Hin). lia.
  - assert (forall c, c ∈ cellsOf json -> col (gs_cell c) < 1) as Hcol.
    { intros c Hin. destruct (decide (1 <= col (gs_cell c))) as [Hc|Hc]; [|lia].
      exfalso. apply Hno. apply list.Exists_exists. eauto. }
    assert (colCountOf (cellsOf json) = 0) as H0.
    { apply fold_max_col_bounded. intros c Hin. specialize (Hcol c Hin). lia. }
    unfold getSheetColumns, buildColumns. rewrite H0.
    change (allocColumns o 0) with ([] : Columns).
    destruct (assignCells o [] (cellsOf json)) as [columns|e|] eqn:E; simpl.
    + apply assignCells_nil in E as [-> Hout].
      split; [now left|]. split; [|reflexivity].
      intros _ c Hin. split; [apply Hcol|apply Hout]; exact Hin.
    + destruct e. split; [now right|]. split; [discriminate|].
      intros H. rewrite assignCells_outside in E; [discriminate|].
      intros c Hin. apply H, Hin.
    + exfalso. eapply assignCells_fuel; eauto.
Qed.

(** X2. The first loop: [colCount] is the largest [col] of the feed, and 0
    when no [col] is positive. *)
Theorem colCountOf_is_largest_col (cells : list Entry) :
  0 <= colCountOf cells /\
  (forall c, c ∈ cells -> col (gs_cell c) <= colCountOf cells) /\
  (colCountOf cells = 0 \/
   exists c, c ∈ cells /\ col (gs_cell c) = colCountOf cells).
Proof.
  split; [apply colCountOf_nonneg|]. split; [apply colCountOf_elem|].
  apply fold_max_col_attained.
Qed.

(** X3. The second loop with a start column of 0 or more: the array
    allocated is dense, one empty column for each index from [startColumn]
    to the smaller of [colCount - 1] and [endColumn], and nothing else. *)
Theorem allocColumns_dense (o : Options) (colCount : Z) :
  0 <= startColumn o ->
  allocColumns o colCount =
  replicate (Z.to_nat (Z.min colCount (endColumn o + 1) - startColumn o)) (Some []).
Proof.
  intros Hs. destruct (decide (0 <= colCount)) as [Hn|Hn].
  - rewrite <- (Z2Nat.id colCount Hn) at 1.
    rewrite allocColumns_dense_nat by exact Hs. rewrite Z2Nat.id by exact Hn.
    reflexivity.
  - unfold allocColumns. rewrite seqZ_nil by lia.
    replace (Z.to_nat (Z.min colCount (endColumn o + 1) - startColumn o))
      with 0%nat by lia.
    reflexivity.
Qed.

Lemma allocColumns_dense_witness :
  0 <= startColumn (mkOptions EmptyString (Num.ofZ 1) 1 2 0 9 false (Num.ofZ 2)) /\
  allocColumns (mkOptions EmptyString (Num.ofZ 1) 1 2 0 9 false (Num.ofZ 2)) 5
    = [Some []; Some []].
Proof.
  split; [simpl; lia|].
  apply (allocColumns_dense
           (mkOptions EmptyString (Num.ofZ 1) 1 2 0 9 false (Num.ofZ 2)) 5).
  simpl. lia.
Defined.

(** X4. The third loop keeps the shape of the array: it adds no column and
    removes none, and a slot is an allocated column afterwards exactly when
    it was one before. *)
Theorem assignCells_keeps_shape (o : Options) (cells : list Entry)
    (columns columns' : Columns) :
  assignCells o columns cells = Ret columns' ->
  length columns' = length columns /\
  forall k, is_Some (JSArray.get columns' k) <-> is_Some (JSArray.get columns k).
Proof.
  intros H. split; [eapply assignCells_length; eauto|].
  intros k. split.
  - eapply assignCells_allocated_back; eauto.
  - eapply assignCells_keeps; eauto.
Qed.

Lemma assignCells_keeps_shape_witness :
  assignCells defaultOptions [Some []; Some []]
      [cellAt 3 2 None (Some "b"); cellAt 1 1 (Some "7") (Some "7")]
    = Ret [Some [Some (VNumber (Num.ofZ 7))]; Some [None; None; Some (VString "b")]] /\
  length [Some [Some (VNumber (Num.ofZ 7))]; Some [None; None; Some (VString "b")]]
    = length ([Some []; Some []] : Columns).
Proof.
  split; [reflexivity|].
  apply (assignCells_keeps_shape defaultOptions
           [cellAt 3 2 None (Some "b"); cellAt 1 1 (Some "7") (Some "7")]
           [Some []; Some []]).
  reflexivity.
Defined.

(** X5. On a well-formed feed the first three loops do not throw: when
    every entry has a [col] of 1 or more and every entry with a numeric
    value has a display text, they complete with an array. Whatever
    [getSheetColumns] throws on such a feed comes from the null fill. *)
Theorem buildColumns_returns_on_wellformed (o : Options) (json : JSON) :
  (forall c, c ∈ cellsOf json -> 1 <= col (gs_cell c)) ->
  (forall c, c ∈ cellsOf json ->
             truthy (numericValue (gs_cell c)) = true -> text (gs_cell c) <> None) ->
  exists columns, buildColumns o json = Ret columns.
Proof.
  intros Hcol Ht. unfold buildColumns. apply assignCells_returns; [|exact Ht].
  intros c Hin Hw. unfold columnIndex, inWindow in *.
  repeat (apply andb_true_iff in Hw as [Hw ?]).
  apply Z.leb_le in Hw. apply Z.leb_le in H1.
  apply allocColumns_covers; [|lia].
  pose proof (colCountOf_elem _ _ Hin). specialize (Hcol c Hin). lia.
Qed.

Lemma buildColumns_returns_on_wellformed_witness :
  exists columns,
    buildColumns defaultOptions
      (mkJSON (Some [cellAt 1 1 (Some "7") (Some "7"); cellAt 2 1 None None]))
    = Ret columns.
Proof.
  apply (buildColumns_returns_on_wellformed defaultOptions
           (mkJSON (Some [cellAt 1 1 (Some "7") (Some "7"); cellAt 2 1 None None]))).
  - intros c Hc. apply elem_of_cons in Hc as [->|Hc]; [simpl; lia|].
    apply list_elem_of_singleton in Hc. subst c. simpl. lia.
  - intros c Hc. apply elem_of_cons in Hc as [->|Hc]; [discriminate|].
    apply list_elem_of_singleton in Hc. subst c. discriminate.
Defined.

(** X6. The last entry wins. In the array the first three loops build, the
    position of a cell of the window holds the value of that cell, provided
    no later entry of the window has the same position. *)
Theorem buildColumns_last_write_wins (o : Options) (json : JSON)
    (pre post : list Entry) (cell : Entry) (columns : Columns) (v : DataValue) :
  cellsOf json = pre ++ cell :: post ->
  buildColumns o json = Ret columns ->
  inWindow o cell = true ->
  cellValue (gs_cell cell) = Ret v ->
  (forall c, c ∈ post -> inWindow o c = true ->
     (columnIndex o c, rowIndex o c) <> (columnIndex o cell, rowIndex o cell)) ->
  JSArray.get2 columns (columnIndex o cell) (rowIndex o cell) = Some v.
Proof.
  intros Hcells Hb Hw Hv Hlater. unfold buildColumns in Hb.
  rewrite Hcells in Hb at 2. rewrite assignCells_app in Hb.
  destruct (assignCells o _ pre) as [columns1|e|] eqn:E1; simpl in Hb;
    try discriminate.
  destruct (assignCell o columns1 cell) as [columns2|e|] eqn:E2; simpl in Hb;
    try discriminate.
  rewrite (assignCells_get2_other o post columns2 columns _ _ Hb Hlater).
  unfold assignCell, cellInner in E2. rewrite Hw, Hv in E2. simpl in E2.
  unfold columnIndex, rowIndex.
  destruct (JSArray.get columns1 (Z.to_nat (col (gs_cell cell) - 1 - startColumn o)))
    as [column|]; [|discriminate].
  inversion E2. apply get2_set_set.
Qed.

Lemma buildColumns_last_write_wins_witness :
  JSArray.get2
    [Some [Some (VString "new")]] 0 0 = Some (VString "new") /\
  buildColumns defaultOptions
    (mkJSON (Some [cellAt 1 1 None (Some "old"); cellAt 1 1 None (Some "new")]))
    = Ret [Some [Some (VString "new")]].
Proof.
  split; [|reflexivity].
  apply (buildColumns_last_write_wins defaultOptions
           (mkJSON (Some [cellAt 1 1 None (Some "old"); cellAt 1 1 None (Some "new")]))
           [cellAt 1 1 None (Some "old")] [] (cellAt 1 1 None (Some "new"))
           [Some [Some (VString "new")]] (VString "new")
           eq_refl eq_refl eq_refl eq_refl).
  intros c Hc. inversion Hc.
Defined.

(** X7. A position that no entry of the window has is left a hole in the
    array the first three loops build: it reads [undefined], not [null]. *)
Theorem buildColumns_untouched_is_hole (o : Options) (json : JSON)
    (columns : Columns) (k r : nat) :
  buildColumns o json = Ret columns ->
  (forall c, c ∈ cellsOf json -> inWindow o c = true ->
     (columnIndex o c, rowIndex o c) <> (k, r)) ->
  JSArray.get2 columns k r = None.
Proof.
  intros Hb Hne. unfold buildColumns in Hb.
  rewrite (assignCells_get2_other _ _ _ _ _ _ Hb Hne).
  apply allocColumns_get2.
Qed.

Lemma buildColumns_untouched_is_hole_witness :
  buildColumns defaultOptions (singleCell 3 1 None (Some "x"))
    = Ret [Some [None; None; Some (VString "x")]] /\
  JSArray.get2 [Some [None; None; Some (VString "x")]] 0 1 = None.
Proof.
  split; [reflexivity|].
  apply (buildColumns_untouched_is_hole defaultOptions
           (singleCell 3 1 None (Some "x"))
           [Some [None; None; Some (VString "x")]] 0 1 eq_refl).
  intros c Hc _. apply list_elem_of_singleton in Hc. subst c. discriminate.
Defined.

(** X8. The third loop ignores the entries outside the window: run on a
    list of entries, it does what it does on the entries of the window
    alone, in their order. *)
Theorem assignCells_ignores_outside (o : Options) (cells : list Entry)
    (columns : Columns) :
  assignCells o columns cells
  = assignCells o columns (List.filter (inWindow o) cells).
Proof.
  revert columns. induction cells as [|c cells IH]; intros columns; simpl; auto.
  destruct (inWindow o c) eqn:Hw.
  - simpl. destruct (assignCell o columns c); simpl; auto.
  - rewrite assignCell_outside by exact Hw. simpl. apply IH.
Qed.

(** ** The value of a cell, continued *)

Lemma cellValue_text_only (inner : GsCell) (c : ascii) (t : string) :
  truthy (numericValue inner) = false -> text inner = Some (String c t) ->
  cellValue inner = Ret (VString (String c t)).
Proof.
  intros Hnv Ht. unfold cellValue. rewrite Ht.
  destruct (numericValue inner) as [[|c' nv]|]; try discriminate; reflexivity.
Qed.

Lemma cellValue_null (inner : GsCell) :
  truthy (numericValue inner) = false -> truthy (text inner) = false ->
  cellValue inner = Ret VNull.
Proof.
  intros Hnv Ht. unfold cellValue.
  destruct (numericValue inner) as [[|c' nv]|]; try discriminate;
    destruct (text inner) as [[|c t]|]; try discriminate; reflexivity.
Qed.

Lemma indexOf_not_positive (t : string) (c : ascii) :
  ~ contains t c \/ (exists rest, t = String c rest) ->
  (0 <? indexOf t c) = false.
Proof.
  intros H. destruct (0 <? indexOf t c) eqn:E; [|reflexivity].
  apply indexOf_positive in E as (c0 & rest & -> & Hne & Hc).
  destruct H as [H|(rest' & H)].
  - exfalso. apply H. right. exact Hc.
  - inversion H. congruence.
Qed.

(** X9. Computing the value of a cell fails in one case only: the cell
    carries a numeric value and has no display text, and then it is a
    TypeError. *)
Theorem cellValue_throws_iff (inner : GsCell) :
  (exists e, cellValue inner = Throw e) <->
  truthy (numericValue inner) = true /\ text inner = None.
Proof.
  unfold cellValue. split.
  - intros [e H].
    destruct (numericValue inner) as [[|c nv]|]; destruct (text inner) as [[|c' t]|];
      try discriminate; auto;
      repeat match type of H with context [if ?b then _ else _] => destruct b end;
      discriminate.
  - intros [Hnv Ht]. rewrite Ht.
    destruct (numericValue inner) as [[|c nv]|]; try discriminate. eauto.
Qed.

(** X10. On a feed with 1-based columns whose numeric entries have a text,
    take a cell of the window that carries a numeric value and whose
    display text has neither '/' nor '-', and has no '%' sign or starts
    with one. The first three loops of [getSheetColumns] complete, and in
    the array they hand to the null fill the position of the cell holds the
    parsed numeric value as it is, unless a later entry of the window has
    the same position. *)
Theorem plain_number_stored (o : Options) (json : JSON)
    (pre post : list Entry) (cell : Entry) (nv t : string) :
  cellsOf json = pre ++ cell :: post ->
  oneBased (cellsOf json) -> numbersHaveText (cellsOf json) ->
  inWindow o cell = true ->
  numericValue (gs_cell cell) = Some nv -> truthy (Some nv) = true ->
  text (gs_cell cell) = Some t ->
  ~ contains t "/" -> ~ contains t "-" ->
  ~ contains t "%" \/ (exists rest, t = String "%" rest) ->
  notOverwritten o cell post ->
  exists columns,
    buildColumns o json = Ret columns /\
    getSheetColumns o json
      = fillNulls (colCountOf (cellsOf json)) (cellCountOf json) columns /\
    JSArray.get2 columns (columnIndex o cell) (rowIndex o cell)
      = Some (VNumber (Num.parseFloat nv)).
Proof.
  intros Hcells Hone Htext Hw Hnv Htr Ht H1 H2 H3 Hlater.
  eapply built_array_holds; eauto.
  eapply cellValue_plain; eauto. apply indexOf_not_positive, H3.
Qed.

Lemma plain_number_stored_witness :
  exists columns,
    buildColumns defaultOptions (singleCell 1 1 (Some "2.5") (Some "2,5"))
      = Ret columns /\
    JSArray.get2 columns 0 0 = Some (VNumber (Num.parseFloat "2.5")).
Proof.
  assert (~ contains "2,5" "/") as H1 by (intros [H|[H|[H|[]]]]; discriminate).
  assert (~ contains "2,5" "-") as H2 by (intros [H|[H|[H|[]]]]; discriminate).
  assert (~ contains "2,5" "%") as H3 by (intros [H|[H|[H|[]]]]; discriminate).
  assert (oneBased (cellsOf (singleCell 1 1 (Some "2.5") (Some "2,5"))))
    as H5 by (single_entry; simpl; lia).
  assert (numbersHaveText (cellsOf (singleCell 1 1 (Some "2.5") (Some "2,5"))))
    as H6 by (single_entry; discriminate).
  assert (notOverwritten defaultOptions (cellAt 1 1 (Some "2.5") (Some "2,5")) [])
    as H7 by no_entry.
  destruct (plain_number_stored defaultOptions
              (singleCell 1 1 (Some "2.5") (Some "2,5")) [] []
              (cellAt 1 1 (Some "2.5") (Some "2,5")) "2.5" "2,5"
              eq_refl H5 H6 eq_refl eq_refl eq_refl eq_refl
              H1 H2 (or_introl H3) H7)
    as (columns & Hb & _ & Hg).
  exists columns. split; [exact Hb|exact Hg].
Defined.

(** X11. On a feed with 1-based columns whose numeric entries have a text,
    take a cell of the window without numeric value and with a non-empty
    display text. The first three loops of [getSheetColumns] complete, and
    in the array they hand to the null fill the position of the cell holds
    the text itself, whatever its characters ('/', '-' and '%' play no
    part), unless a later entry of the window has the same position. *)
Theorem text_cell_stored (o : Options) (json : JSON)
    (pre post : list Entry) (cell : Entry) (c : ascii) (t : string) :
  cellsOf json = pre ++ cell :: post ->
  oneBased (cellsOf json) -> numbersHaveText (cellsOf json) ->
  inWindow o cell = true ->
  truthy (numericValue (gs_cell cell)) = false ->
  text (gs_cell cell) = Some (String c t) ->
  notOverwritten o cell post ->
  exists columns,
    buildColumns o json = Ret columns /\
    getSheetColumns o json
      = fillNulls (colCountOf (cellsOf json)) (cellCountOf json) columns /\
    JSArray.get2 columns (columnIndex o cell) (rowIndex o cell)
      = Some (VString (String c t)).
Proof.
  intros Hcells Hone Htext Hw Hnv Ht Hlater.
  eapply built_array_holds; eauto. apply cellValue_text_only; auto.
Qed.

Lemma text_cell_stored_witness :
  exists columns,
    buildColumns defaultOptions (singleCell 1 1 None (Some "50%")) = Ret columns /\
    JSArray.get2 columns 0 0 = Some (VString "50%").
Proof.
  assert (oneBased (cellsOf (singleCell 1 1 None (Some "50%"))))
    as H5 by (single_entry; simpl; lia).
  assert (numbersHaveText (cellsOf (singleCell 1 1 None (Some "50%"))))
    as H6 by (single_entry; discriminate).
  assert (notOverwritten defaultOptions (cellAt 1 1 None (Some "50%")) [])
    as H7 by no_entry.
  destruct (text_cell_stored defaultOptions
              (singleCell 1 1 None (Some "50%")) [] []
              (cellAt 1 1 None (Some "50%")) "5" "0%"
              eq_refl H5 H6 eq_refl eq_refl eq_refl H7)
    as (columns & Hb & _ & Hg).
  exists columns. split; [exact Hb|exact Hg].
Defined.

(** X12. On a feed with 1-based columns whose numeric entries have a text,
    take a cell of the window with neither a numeric value nor a non-empty
    display text. The first three loops of [getSheetColumns] complete, and
    in the array they hand to the null fill the position of the cell holds
    an explicit [null], so it is not a hole, unless a later entry of the
    window has the same position. *)
Theorem blank_cell_stored_as_null (o : Options) (json : JSON)
    (pre post : list Entry) (cell : Entry) :
  cellsOf json = pre ++ cell :: post ->
  oneBased (cellsOf json) -> numbersHaveText (cellsOf json) ->
  inWindow o cell = true ->
  truthy (numericValue (gs_cell cell)) = false ->
  truthy (text (gs_cell cell)) = false ->
  notOverwritten o cell post ->
  exists columns,
    buildColumns o json = Ret columns /\
    getSheetColumns o json
      = fillNulls (colCountOf (cellsOf json)) (cellCountOf json) columns /\
    JSArray.get2 columns (columnIndex o cell) (rowIndex o cell) = Some VNull.
Proof.
  intros Hcells Hone Htext Hw Hnv Ht Hlater.
  eapply built_array_holds; eauto. apply cellValue_null; auto.
Qed.

Lemma blank_cell_stored_as_null_witness :
  exists columns,
    buildColumns defaultOptions (singleCell 1 1 (Some EmptyString) None)
      = Ret columns /\
    JSArray.get2 columns 0 0 = Some VNull.
Proof.
  assert (oneBased (cellsOf (singleCell 1 1 (Some EmptyString) None)))
    as H5 by (single_entry; simpl; lia).
  assert (numbersHaveText (cellsOf (singleCell 1 1 (Some EmptyString) None)))
    as H6 by (single_entry; discriminate).
  assert (notOverwritten defaultOptions (cellAt 1 1 (Some EmptyString) None) [])
    as H7 by no_entry.
  destruct (blank_cell_stored_as_null defaultOptions
              (singleCell 1 1 (Some EmptyString) None) [] []
              (cellAt 1 1 (Some EmptyString) None)
              eq_refl H5 H6 eq_refl eq_refl eq_refl H7)
    as (columns & Hb & _ & Hg).
  exists columns. split; [exact Hb|exact Hg].
Defined.

(** X13. The default window drops no cell of a 1-based feed: every cell
    whose [row] and [col] are at least 1 (and at most [Number.MAX_VALUE])
    lies in it, and a cell with a [row] or a [col] below 1 does not. *)
Theorem default_window_takes_every_cell (cell : Entry) :
  (1 <= row (gs_cell cell) <= Num.MAX_VALUE ->
   1 <= col (gs_cell cell) <= Num.MAX_VALUE ->
   inWindow defaultOptions cell = true) /\
  (inWindow defaultOptions cell = true ->
   1 <= row (gs_cell cell) /\ 1 <= col (gs_cell cell)).
Proof.
  unfold inWindow. cbn [startColumn endColumn startRow endRow defaultOptions].
  rewrite !andb_true_iff, !Z.leb_le. lia.
Qed.

Lemma default_window_takes_every_cell_witness :
  inWindow defaultOptions (cellAt 1000 26 None None) = true.
Proof.
  apply (proj1 (default_window_takes_every_cell (cellAt 1000 26 None None)));
    cbn [row col gs_cell cellAt]; split; try lia; vm_compute; discriminate.
Defined.

(** * Further properties of the load cycle *)

(** ** The shape of every run of [parseSheet] and of the success callback *)

Lemma getSheetColumns_two_results (o : Options) (json : JSON) :
  getSheetColumns o json = Ret [] \/ getSheetColumns o json = Throw TypeError.
Proof.
  destruct (getSheetColumns o json) as [columns|e|] eqn:E.
  - left. f_equal.
    destruct (decide (Exists (fun c => 1 <= col (gs_cell c)) (cellsOf json)))
      as [Hex|Hno].
    + apply list.Exists_exists in Hex as (c & Hin & Hc).
      rewrite (getSheetColumns_throws o json c Hin Hc) in E. discriminate.
    + assert (colCountOf (cellsOf json) = 0) as H0.
      { apply fold_max_col_bounded. intros c Hin.
        destruct (decide (1 <= col (gs_cell c))) as [Hc|Hc]; [|lia].
        exfalso. apply Hno. apply list.Exists_exists. eauto. }
      unfold getSheetColumns, buildColumns in E. rewrite H0 in E.
      change (allocColumns o 0) with ([] : Columns) in E.
      destruct (assignCells o [] (cellsOf json)) as [columns1|e|] eqn:E1;
        simpl in E; try discriminate.
      apply assignCells_nil in E1 as [-> _].
      unfold fillNulls in E. simpl in E. inversion E. reflexivity.
  - destruct e. now right.
  - exfalso. eapply getSheetColumns_completes; eauto.
Qed.

Lemma parseSheet_nonempty (json : JSON) (w : World) :
  cellsOf json <> [] ->
  parseSheet json w =
  match getSheetColumns (options (store w)) json with
  | Ret columns =>
      (Ret None,
       {| store := withColumns (store w) columns;
          trace := trace w ++ [Emit (EvParse json); Emit (EvAfterParse columns)] |})
  | Throw e =>
      (Throw e, {| store := store w; trace := trace w ++ [Emit (EvParse json)] |})
  | OutOfFuel =>
      (OutOfFuel, {| store := store w; trace := trace w ++ [Emit (EvParse json)] |})
  end.
Proof.
  intros Hne. unfold parseSheet, cellsOf in *.
  destruct (feed_entry json) as [[|c cells]|]; try congruence.
  unfold fireEvent, mbind, effect, getStore, lift, setColumns, mret, withColumns.
  cbn [store trace].
  destruct (getSheetColumns (options (store w)) _); try reflexivity.
  cbn [store trace]. rewrite <- app_assoc. reflexivity.
Qed.

Lemma parseSheet_shape (json : JSON) (w : World) :
  parseSheet json w = (Ret (Some false), w) \/
  parseSheet json w =
    (Throw TypeError,
     {| store := store w; trace := trace w ++ [Emit (EvParse json)] |}) \/
  parseSheet json w =
    (Ret None,
     {| store := withColumns (store w) [];
        trace := trace w ++ [Emit (EvParse json); Emit (EvAfterParse [])] |}).
Proof.
  destruct (cellsOf json) as [|c cells] eqn:E.
  - left. apply parseSheet_empty, E.
  - right. rewrite parseSheet_nonempty by (rewrite E; discriminate).
    destruct (getSheetColumns_two_results (options (store w)) json) as [-> | ->]; auto.
Qed.

Lemma respond_success_unfold (nts : Num.t -> string) (r : Request) (json : JSON)
    (w : World) :
  respond nts r (Success json) w =
  match parseSheet json
          {| store := store w;
             trace := trace w ++
               [Emit (EvLoad json (reqEnablePolling r) (reqDataRefreshRate r))] |} with
  | (Ret _, w1) =>
      match headersOf nts (columns (store w1)) with
      | Ret headers =>
          (Ret tt,
           {| store := store w1;
              trace := trace w1 ++
                [BuildTable (columnArrayToDataTable (columns (store w1)) headers)] ++
                (if reqEnablePolling r
                 then [SetTimeout (Num.mul (reqDataRefreshRate r) (Num.ofZ 1000))]
                 else []) ++
                [Emit (EvAfterLoad
                         (columnArrayToDataTable (columns (store w1)) headers))] |})
      | Throw e => (Throw e, w1)
      | OutOfFuel => (OutOfFuel, w1)
      end
  | (Throw e, w1) => (Throw e, w1)
  | (OutOfFuel, w1) => (OutOfFuel, w1)
  end.
Proof.
  unfold respond, onSuccess, loadDefault, fireEvent.
  unfold mbind, effect, getStore, lift, mret.
  destruct (parseSheet json _) as [[x|e|] w1]; try reflexivity.
  cbn [store trace].
  destruct (headersOf nts (columns (store w1))); try reflexivity.
  destruct (reqEnablePolling r); cbn [store trace];
    rewrite <- !app_assoc; reflexivity.
Qed.

Lemma headersOf_throw (nts : Num.t -> string) (columns : Columns) :
  headersOf nts columns <> OutOfFuel.
Proof.
  induction columns as [|[column|] columns IH]; simpl; try discriminate.
  destruct (headersOf nts columns); simpl; try discriminate. congruence.
Qed.

(** ** Results of the two callbacks on a feed with entries *)

Lemma parseSheet_entries_throw (json : JSON) (w : World) :
  cellsOf json <> [] ->
  (forall c, c ∈ cellsOf json -> 1 <= col (gs_cell c)) ->
  parseSheet json w =
    (Throw TypeError,
     {| store := store w; trace := trace w ++ [Emit (EvParse json)] |}).
Proof.
  intros Hne Hcol. rewrite parseSheet_nonempty by exact Hne.
  destruct (cellsOf json) as [|c cells] eqn:E; [congruence|].
  rewrite (getSheetColumns_throws (options (store w)) json c).
  - reflexivity.
  - rewrite E. left.
  - apply Hcol. left.
Qed.

(** X14. On a payload whose feed has an entry, with 1-based columns,
    [parseSheet] emits 'parse' and then fails with the TypeError of the
    column builder: the [columns] of the store stay as they were and no
    'afterParse' is emitted. *)
Theorem parseSheet_throws_on_entries (json : JSON) (w : World) :
  cellsOf json <> [] ->
  (forall c, c ∈ cellsOf json -> 1 <= col (gs_cell c)) ->
  parseSheet json w =
    (Throw TypeError,
     {| store := store w; trace := trace w ++ [Emit (EvParse json)] |}).
Proof. apply parseSheet_entries_throw. Qed.

Lemma parseSheet_throws_on_entries_witness :
  parseSheet (singleCell 1 1 (Some "5") (Some "5")) (freshWorld (keyOnly (Some "k")))
  = (Throw TypeError,
     {| store := store (freshWorld (keyOnly (Some "k")));
        trace := [Emit (EvParse (singleCell 1 1 (Some "5") (Some "5")))] |}).
Proof.
  apply (parseSheet_throws_on_entries (singleCell 1 1 (Some "5") (Some "5"))
           (freshWorld (keyOnly (Some "k")))).
  - discriminate.
  - intros c Hc. apply list_elem_of_singleton in Hc. subst c. simpl. lia.
Defined.

(** X15. On a payload whose feed has an entry, with 1-based columns, the
    success callback emits 'load' and 'parse' and then fails with a
    TypeError that leaves the callback: no table is built, no 'afterLoad'
    is emitted, the store is as it was, and no timer is set even with
    polling on, so polling ends there. *)
Theorem success_callback_throws_on_entries (nts : Num.t -> string) (r : Request)
    (json : JSON) (w : World) :
  cellsOf json <> [] ->
  (forall c, c ∈ cellsOf json -> 1 <= col (gs_cell c)) ->
  respond nts r (Success json) w =
    (Throw TypeError,
     {| store := store w;
        trace := trace w ++
          [Emit (EvLoad json (reqEnablePolling r) (reqDataRefreshRate r));
           Emit (EvParse json)] |}).
Proof.
  intros Hne Hcol. rewrite respond_success_unfold.
  rewrite parseSheet_entries_throw by assumption.
  cbn [store trace]. rewrite <- app_assoc. reflexivity.
Qed.

Lemma success_callback_throws_on_entries_witness :
  respond (fun _ => "1") (mkRequest "u" true (Num.ofZ 2))
    (Success (singleCell 1 1 (Some "5") (Some "5")))
    (freshWorld (keyOnly (Some "k")))
  = (Throw TypeError,
     {| store := store (freshWorld (keyOnly (Some "k")));
        trace := [Emit (EvLoad (singleCell 1 1 (Some "5") (Some "5")) true (Num.ofZ 2));
                  Emit (EvParse (singleCell 1 1 (Some "5") (Some "5")))] |}).
Proof.
  apply (success_callback_throws_on_entries (fun _ => "1")
           (mkRequest "u" true (Num.ofZ 2))
           (singleCell 1 1 (Some "5") (Some "5"))
           (freshWorld (keyOnly (Some "k")))).
  - discriminate.
  - intros c Hc. apply list_elem_of_singleton in Hc. subst c. simpl. lia.
Defined.

(** ** What every step keeps *)

Lemma fetchSheet_result (nts : Num.t -> string) (w : World) :
  fetchSheet nts w =
    (Ret tt,
     {| store := store w;
        trace := trace w ++ [Ajax (requestOf nts (options (store w)))] |}).
Proof. reflexivity. Qed.

Lemma load_result (nts : Num.t -> string) (w : World) :
  load nts w = (Ret tt, w) \/ load nts w = fetchSheet nts w.
Proof.
  destruct (string_dec (googleSpreadsheetKey (options (store w))) EmptyString) as [E|E].
  - left. apply load_without_key, E.
  - right. apply load_with_key, E.
Qed.

(** Every step leaves a world with the old trace extended, and a store that
    is the old one, possibly with its [columns] set to the empty array. *)
Lemma respond_success_shape (nts : Num.t -> string) (r : Request) (json : JSON)
    (w : World) :
  exists (s1 : Store) (tr1 : list Effect),
    snd (respond nts r (Success json) w)
      = {| store := s1; trace := trace w ++ tr1 |} /\
    (s1 = store w \/ s1 = withColumns (store w) []) /\
    (columns (store w) = [] -> Forall carriesNoData tr1) /\
    requestsOf tr1 = [].
Proof.
  rewrite respond_success_unfold.
  destruct (parseSheet_shape json
              {| store := store w;
                 trace := trace w ++
                   [Emit (EvLoad json (reqEnablePolling r) (reqDataRefreshRate r))] |})
    as [-> | [-> | ->]]; cbn [store trace snd].
  - destruct (headersOf nts (columns (store w))) as [headers|e|] eqn:E;
      cbn [snd]; rewrite <- ?app_assoc.
    + eexists _, _. split; [reflexivity|]. split; [now left|]. split.
      * intros Hc. rewrite Hc in E. inversion E; subst. rewrite Hc.
        destruct (reqEnablePolling r); repeat constructor.
      * destruct (reqEnablePolling r); reflexivity.
    + eexists _, _. split; [reflexivity|]. split; [now left|].
      split; [intros _; repeat constructor|reflexivity].
    + eexists _, _. split; [reflexivity|]. split; [now left|].
      split; [intros _; repeat constructor|reflexivity].
  - rewrite <- ?app_assoc. eexists _, _. split; [reflexivity|].
    split; [now left|]. split; [intros _; repeat constructor|reflexivity].
  - cbn [headersOf columns withColumns]. cbn [snd store trace].
    rewrite <- ?app_assoc.
    eexists _, _. split; [reflexivity|]. split; [now right|]. split.
    + intros _. destruct (reqEnablePolling r); repeat constructor.
    + destruct (reqEnablePolling r); reflexivity.
Qed.

Lemma step_shape (nts : Num.t -> string) (w : World) (a : Action) :
  exists (s1 : Store) (tr1 : list Effect),
    step nts w a = {| store := s1; trace := trace w ++ tr1 |} /\
    (s1 = store w \/ s1 = withColumns (store w) []) /\
    (columns (store w) = [] -> Forall carriesNoData tr1).
Proof.
  destruct a as [|r [json|xhr text]|]; unfold step, onTimeout.
  - destruct (load_result nts w) as [-> | ->].
    + exists (store w), []. rewrite app_nil_r. cbn [snd].
      split; [symmetry; apply world_eta|]. split; [now left|]. constructor.
    + rewrite fetchSheet_result. cbn [snd]. eexists _, _.
      split; [reflexivity|]. split; [now left|]. intros _. repeat constructor.
  - destruct (respond_success_shape nts r json w) as (s1 & tr1 & E & Hs & Hd & _).
    eauto.
  - eexists _, _. split; [reflexivity|]. split; [now left|].
    intros _. repeat constructor.
  - rewrite fetchSheet_result. cbn [snd]. eexists _, _.
    split; [reflexivity|]. split; [now left|]. intros _. repeat constructor.
Qed.

Lemma step_config (nts : Num.t -> string) (w : World) (a : Action) :
  options (store (step nts w a)) = options (store w) /\
  table (store (step nts w a)) = table (store w).
Proof.
  destruct (step_shape nts w a) as (s1 & tr1 & -> & [-> | ->] & _); auto.
Qed.

Lemma run_config (nts : Num.t -> string) (actions : list Action) (w : World) :
  options (store (run nts actions w)) = options (store w) /\
  table (store (run nts actions w)) = table (store w).
Proof.
  unfold run. revert w. induction actions as [|a actions IH]; intros w; simpl; auto.
  destruct (IH (step nts w a)) as [-> ->]. apply step_config.
Qed.

Lemma step_holdsNoData (nts : Num.t -> string) (w : World) (a : Action) :
  holdsNoData w -> holdsNoData (step nts w a).
Proof.
  intros [Hc Ht].
  destruct (step_shape nts w a) as (s1 & tr1 & -> & Hs & Hd).
  split; cbn [store trace].
  - destruct Hs as [-> | ->]; auto.
  - apply Forall_app. split; auto.
Qed.

(** X16. No step of the load cycle writes to the options of the store or to
    the table handed to the constructor: after any sequence of loads,
    answers of the transport and timer firings, whether they throw or not,
    both are what they were. A table built by a cycle goes to the
    'afterLoad' event only. *)
Theorem run_keeps_options_and_table (nts : Num.t -> string)
    (actions : list Action) (w : World) :
  options (store (run nts actions w)) = options (store w) /\
  table (store (run nts actions w)) = table (store w).
Proof. apply run_config. Qed.

(** X17. A store made by the constructor never comes to hold or hand out
    cell data: after any sequence of loads, answers of the transport with
    any payload, and timer firings, its [columns] are the empty array, and
    every 'afterParse' carried the empty Column Set and every table built
    or handed to 'afterLoad' was the table of no columns and no headers. *)
Theorem constructed_store_never_holds_data (nts : Num.t -> string)
    (tbl : DataTable) (p : PartialOptions) (actions : list Action) :
  holdsNoData (run nts actions (mkWorld (newStore tbl p) [])).
Proof.
  assert (forall w, holdsNoData w -> holdsNoData (run nts actions w)) as H.
  { unfold run. induction actions as [|a actions IH]; intros w Hw; simpl; auto.
    apply IH, step_holdsNoData, Hw. }
  apply H. split; [reflexivity|constructor].
Qed.

(** X18. Neither callback of a request issues a request: whatever the
    transport answers, and whether the callback returns or throws, the
    requests made so far are the same afterwards. There is no retry. *)
Theorem callbacks_issue_no_request (nts : Num.t -> string) (r : Request)
    (resp : Response) (w : World) :
  requestsOf (trace (snd (respond nts r resp w))) = requestsOf (trace w).
Proof.
  destruct resp as [json|xhr text].
  - destruct (respond_success_shape nts r json w) as (s1 & tr1 & -> & _ & _ & Hr).
    cbn [trace]. unfold requestsOf in *. rewrite omap_app, Hr. apply app_nil_r.
  - cbn. unfold requestsOf. rewrite omap_app. apply app_nil_r.
Qed.

(** X19. The next fetch is scheduled by one thing only: a success callback
    that runs to its end for a request made with polling on. It then sets
    one timer, of [dataRefreshRate * 1000]. The error callback, a success
    callback that throws and a request made with polling off set none. *)
Theorem timer_set_only_by_completed_success (nts : Num.t -> string)
    (r : Request) (resp : Response) (w : World) :
  timersOf (trace (snd (respond nts r resp w))) =
  timersOf (trace w) ++
  match resp, fst (respond nts r resp w) with
  | Success _, Ret _ =>
      if reqEnablePolling r
      then [Num.mul (reqDataRefreshRate r) (Num.ofZ 1000)]
      else []
  | _, _ => []
  end.
Proof.
  destruct resp as [json|xhr text].
  - rewrite respond_success_unfold.
    destruct (parseSheet_shape json
                {| store := store w;
                   trace := trace w ++
                     [Emit (EvLoad json (reqEnablePolling r) (reqDataRefreshRate r))] |})
      as [-> | [-> | ->]]; cbn [store trace snd fst].
    + destruct (headersOf nts (columns (store w))); cbn [snd fst trace];
        unfold timersOf; rewrite ?omap_app; destruct (reqEnablePolling r);
        cbn; rewrite ?app_nil_r; reflexivity.
    + unfold timersOf. rewrite ?omap_app. cbn. rewrite ?app_nil_r. reflexivity.
    + cbn [headersOf columns withColumns]. cbn [snd fst trace].
      unfold timersOf; rewrite ?omap_app; destruct (reqEnablePolling r);
        cbn; rewrite ?app_nil_r; reflexivity.
  - cbn. unfold timersOf. rewrite omap_app. cbn. rewrite ?app_nil_r. reflexivity.
Qed.

(** X20. Every polled request is the request the options describe: when a
    timer fires after any sequence of loads, answers and timer firings, the
    callback issues one request, with the URL and the polling values built
    from the options the store had at the start. *)
Theorem timer_repeats_the_request (nts : Num.t -> string)
    (actions : list Action) (w : World) :
  onTimeout nts (run nts actions w) =
    (Ret tt,
     {| store := store (run nts actions w);
        trace := trace (run nts actions w) ++
                 [Ajax (requestOf nts (options (store w)))] |}).
Proof.
  unfold onTimeout. rewrite fetchSheet_result.
  destruct (run_config nts actions w) as [-> _]. reflexivity.
Qed.

(** X21. [load] does not look for a request in flight: with a key set,
    [n] calls in a row issue [n] requests, all the same. *)
Theorem repeated_load_repeats_request (nts : Num.t -> string) (n : nat)
    (w : World) :
  googleSpreadsheetKey (options (store w)) <> EmptyString ->
  requestsOf (trace (run nts (replicate n DoLoad) w)) =
  requestsOf (trace w) ++ replicate n (requestOf nts (options (store w))).
Proof.
  intros Hk. revert w Hk. induction n as [|n IH]; intros w Hk.
  - simpl. symmetry. apply app_nil_r.
  - change (run nts (replicate (S n) DoLoad) w)
      with (run nts (replicate n DoLoad) (step nts w DoLoad)).
    unfold step. rewrite load_with_key by exact Hk.
    rewrite fetchSheet_result. cbn [snd].
    rewrite IH by exact Hk. cbn [store trace].
    unfold requestsOf. rewrite omap_app. cbn [omap].
    rewrite <- app_assoc. reflexivity.
Qed.

Lemma repeated_load_repeats_request_witness :
  requestsOf (trace (run (fun _ => "1") [DoLoad; DoLoad] (freshWorld (keyOnly (Some "k")))))
  = [requestOf (fun _ => "1") (options (store (freshWorld (keyOnly (Some "k")))));
     requestOf (fun _ => "1") (options (store (freshWorld (keyOnly (Some "k")))))].
Proof.
  apply (repeated_load_repeats_request (fun _ => "1") 2
           (freshWorld (keyOnly (Some "k")))).
  discriminate.
Defined.

(** ** Headers *)

(** X22. The headers of the success callback: when every slot of the
    store's [columns] is a column, there is one header per column, the
    string of the column's first cell ("undefined" for a column without
    one, "null" for [null]); when a slot is a hole, the header loop fails
    with a TypeError. *)
Theorem headersOf_one_per_column (nts : Num.t -> string) (columns : Columns) :
  (Forall is_Some columns ->
   headersOf nts columns =
     Ret (map (fun slot => toStr nts (JSArray.get (default [] slot) 0)) columns)) /\
  (~ Forall is_Some columns -> headersOf nts columns = Throw TypeError).
Proof.
  induction columns as [|[column|] columns [IH1 IH2]]; simpl.
  - split; [reflexivity|]. intros H. exfalso. apply H. constructor.
  - split.
    + intros H. inversion H; subst. rewrite IH1 by assumption. reflexivity.
    + intros H. rewrite IH2; [reflexivity|].
      intros H'. apply H. constructor; eauto.
  - split; [|reflexivity]. intros H. inversion H; subst.
    destruct H2 as [x Hx]. discriminate.
Qed.

Lemma headersOf_one_per_column_witness :
  headersOf (fun _ => "7") [Some [Some (VString "a")]; Some []; Some [Some VNull]]
    = Ret ["a"; "undefined"; "null"] /\
  headersOf (fun _ => "7") [Some [Some (VString "a")]; None] = Throw TypeError.
Proof.
  split.
  - apply (proj1 (headersOf_one_per_column (fun _ => "7")
                    [Some [Some (VString "a")]; Some []; Some [Some VNull]])).
    repeat constructor; eauto.
  - apply (proj2 (headersOf_one_per_column (fun _ => "7")
                    [Some [Some (VString "a")]; None])).
    intros H. inversion H as [|? ? _ H']; subst. inversion H' as [|? ? [x Hx] _]; subst.
    discriminate.
Defined.
